(** * System curves: total dynamic head of a series pipeline

    A shallow embedding of the calculation engine of the system-curves
    repository.  The repository holds two parallel implementations of the
    same domain:

    - the banded model ([models/PipeSection.ts] and [models/System.ts]),
      with elevation bands and an inlined max/min head computation;
    - the single-valued model ([models/Pipeline.ts], [models/Bernoullis.ts],
      the [SerghidesApproximation] class and the single-valued [PipeSection]
      class), with a Bernoulli decomposition and a unit system.

    The sources are embedded twice.  The main embedding idealises
    JavaScript numbers as real numbers: it states which expressions the
    program evaluates, and it stands for the program on inputs that are
    numbers (not NaN, not infinite) as far as rounding, overflow and
    underflow play no part.  The module [Binary64] embeds the numeric
    methods again on binary64 numbers, operation for operation; statements
    of exact equality are put to the test there, and the guards of the
    constructors are tried on NaN.

    [models/Pipeline.ts] imports its section class from [./PipeSection].
    Both section classes of the repository carry that name, so the pipeline
    is embedded over each: [Single.Pipeline] over the single-valued class,
    [PipelineLaidOut] over the banded class of [models/PipeSection.ts].

    Thrown errors are values of [JS.Exn]; objects with mutable fields are
    threaded explicitly through a small state-and-exception monad. *)

From Stdlib Require Import Reals Lra List ZArith Lia String Bool Permutation.
From Stdlib Require Import Floats Uint63.
Import ListNotations.

#[local] Set Warnings "-inexact-float".
#[local] Open Scope R_scope.

(** ** The host language *)

Module JS.

(** What a [throw] carries.  The sources only ever throw [Error(message)];
    a [TypeError] is what the engine raises when an array pattern
    destructures [undefined]. *)
Inductive Exn : Type :=
| Error (message : string)
| TypeError (message : string).

(** The outcome of evaluating an expression or a call. *)
Inductive Completion (A : Type) : Type :=
| Normal (value : A)
| Throw (exn : Exn).
Arguments Normal {A} value.
Arguments Throw {A} exn.

Definition returns {A} (c : Completion A) : bool :=
  match c with Normal _ => true | Throw _ => false end.

(** Comparisons of numbers.  Over the real numbers a comparison is decided
    one way or the other; the comparisons of the engine are all false on
    NaN, which [Binary64] models. *)
Definition lt (a b : R) : bool := if Rlt_dec a b then true else false.
Definition le (a b : R) : bool := if Rle_dec a b then true else false.
Definition strict_eq (a b : R) : bool := if Req_dec_T a b then true else false.
Definition strict_ne (a b : R) : bool := negb (strict_eq a b).

(** Truthiness of a [number | null]: [null] and [0] are falsy; and the
    number a [number | null] stands for in arithmetic. *)
Definition truthy (v : option R) : bool :=
  match v with
  | Some x => strict_ne x 0
  | None => false
  end.

Definition to_number (v : option R) : R :=
  match v with
  | Some x => x
  | None => 0
  end.

(** [Math.max], [Math.pow] and [**] at the integer exponents the sources
    use, and the constant [math.pi]. *)
Definition Math_max (a b : R) : R := Rmax a b.
Definition Math_pow (x : R) (n : Z) : R := powerRZ x n.
Definition math_pi : R := PI.

(** The base-10 logarithms, [Math.log10] of the engine and [log10] of
    mathjs.  ECMAScript leaves the function implementation-approximated, so
    the embedding keeps both abstract: every definition and theorem below is
    parametric in the host. *)
Class Host : Type := {
  Math_log10 : R -> R;
  math_log10 : R -> R
}.

(** The mathematical logarithm, as one host among others. *)
Definition idealHost : Host := {|
  Math_log10 := fun x => ln x / ln 10;
  math_log10 := fun x => ln x / ln 10
|}.

(** [Array.from({ length: n }, (_, i) => f i)]. *)
Definition Array_from {A} (n : nat) (f : nat -> A) : list A :=
  map f (seq 0 n).

(** [xs.reduce((sum, k) => sum + k, 0)]. *)
Definition reduce_sum (xs : list R) : R :=
  fold_left (fun sum k => sum + k) xs 0.

(** [Array(n).fill(v)]. *)
Definition Array_fill {A} (n : nat) (v : A) : list A := repeat v n.

(** [xs[i] = v] for an index inside the array. *)
Fixpoint assign {A} (xs : list A) (i : nat) (v : A) : list A :=
  match xs, i with
  | [], _ => []
  | _ :: tl, O => v :: tl
  | x :: tl, S j => x :: assign tl j v
  end.

(** [xs.splice(i, 1)] for a non-negative integer index: the array that is
    left. *)
Fixpoint splice1 {A} (xs : list A) (i : nat) : list A :=
  match xs, i with
  | [], _ => []
  | _ :: tl, O => tl
  | x :: tl, S j => x :: splice1 tl j
  end.

(** Sequencing of completions: a [throw] skips what follows. *)
Definition and_then {A B} (c : Completion A) (k : A -> Completion B)
  : Completion B :=
  match c with
  | Normal a => k a
  | Throw e => Throw e
  end.

(** *** Methods of a mutable object

    A method of an object with state [S] is a function from the state
    before the call to its completion and the state after it.  A [throw]
    keeps the state reached so far. *)
Definition M (S A : Type) : Type := S -> Completion A * S.

Definition ret {S A} (a : A) : M S A := fun s => (Normal a, s).

Definition throw {S A} (e : Exn) : M S A := fun s => (Throw e, s).

Definition bind {S A B} (m : M S A) (k : A -> M S B) : M S B :=
  fun s =>
    match m s with
    | (Normal a, s') => k a s'
    | (Throw e, s') => (Throw e, s')
    end.

Definition gets {S A} (f : S -> A) : M S A := fun s => (Normal (f s), s).

Definition modify {S} (f : S -> S) : M S unit := fun s => (Normal tt, f s).

(** A completion computed without touching the object. *)
Definition lift {S A} (c : Completion A) : M S A := fun s => (c, s).

(** [for (const x of xs) body], with the local variables the body updates
    passed along as [acc]. *)
Fixpoint for_of {S A B} (xs : list A) (body : B -> A -> M S B) (acc : B)
  : M S B :=
  match xs with
  | [] => ret acc
  | x :: tl => bind (body acc x) (for_of tl body)
  end.

(** [for (let i = 0; i < n; i++) body]. *)
Definition for_range {S B} (n : nat) (body : B -> nat -> M S B) (acc : B)
  : M S B :=
  for_of (seq 0 n) body acc.

(** [const [a, ...] = rows[i]]: destructuring [undefined] throws. *)
Definition destructure_at {S A} (rows : list A) (i : nat) : M S A :=
  match nth_error rows i with
  | Some row => ret row
  | None => throw (TypeError "undefined is not iterable")
  end.

(** [xs[i].method(...)]: calling a method of [undefined] throws. *)
Definition receiver_at {S A} (xs : list A) (i : nat) : M S A :=
  match nth_error xs i with
  | Some x => ret x
  | None => throw (TypeError "Cannot read properties of undefined")
  end.

End JS.

Import JS.

Declare Scope js_scope.
Delimit Scope js_scope with js.
Notation "x <- m ;; k" := (bind m (fun x => k))
  (at level 61, m at next level, right associativity) : js_scope.
Notation "' pat <- m ;; k" := (bind m (fun x => match x with pat => k end))
  (at level 61, pat pattern, m at next level, right associativity) : js_scope.

Declare Scope completion_scope.
Delimit Scope completion_scope with completion.
Notation "x <- c ;; k" := (and_then c (fun x => k))
  (at level 61, c at next level, right associativity) : completion_scope.

(** ** The banded model: [models/PipeSection.ts] and [models/System.ts] *)

Module Banded.

Module PipeSection.

(** The fields of a constructed section: the fourteen constructor
    parameters and the three values cached by the constructor. *)
Record t : Type := mk {
  p1 : R;
  p2 : R;
  v1 : R;
  v2 : R;
  z1_min : R;
  z2_min : R;
  z1_max : R;
  z2_max : R;
  length : R;
  diameter : R;
  absoluteRoughness : R;
  kinematicViscOfFluid : R;
  targetFlowRate : R;
  appurtenanceKValues : list R;
  hydraulicArea : R;
  relativeRoughness : R;
  hasVelocityHead : bool
}.

(** The guards in the order of the source.  Over the real numbers each
    guard is decided by an inequality; an argument that is NaN or
    [undefined] makes every comparison false and passes, which
    [Binary64.Banded.PipeSection.constructor] models. *)
Definition constructor
  (p1 p2 v1 v2 z1_min z2_min z1_max z2_max : R)
  (length diameter absoluteRoughness kinematicViscOfFluid : R)
  (targetFlowRate : R) (appurtenanceKValues : list R) : Completion t :=
  if le diameter 0 then
    Throw (Error "Pipe diameter must be greater than 0.")
  else if le length 0 then
    Throw (Error "Pipe length must be greater than 0.")
  else if lt absoluteRoughness 0 then
    Throw (Error "Absolute roughness must be non-negative.")
  else if le kinematicViscOfFluid 0 then
    Throw (Error "Kinematic viscosity must be greater than 0.")
  else if Nat.eqb (List.length appurtenanceKValues) 0 then
    Throw (Error "Appurtenance K values must not be empty.")
  else if lt z2_max z1_min || lt z2_min z1_max then
    Throw (Error "Elevation ranges are invalid.")
  else
    Normal {|
      p1 := p1; p2 := p2; v1 := v1; v2 := v2;
      z1_min := z1_min; z2_min := z2_min;
      z1_max := z1_max; z2_max := z2_max;
      length := length; diameter := diameter;
      absoluteRoughness := absoluteRoughness;
      kinematicViscOfFluid := kinematicViscOfFluid;
      targetFlowRate := targetFlowRate;
      appurtenanceKValues := appurtenanceKValues;
      hydraulicArea := (math_pi * Math_pow diameter 2) / 4;
      relativeRoughness := absoluteRoughness / diameter;
      hasVelocityHead := strict_ne v2 v1
    |}.

(** [ConstructorParameters<typeof PipeSection>]: the argument tuple that
    the aggregate spreads into the constructor. *)
Record ConstructorParameters : Type := params {
  arg_p1 : R;
  arg_p2 : R;
  arg_v1 : R;
  arg_v2 : R;
  arg_z1_min : R;
  arg_z2_min : R;
  arg_z1_max : R;
  arg_z2_max : R;
  arg_length : R;
  arg_diameter : R;
  arg_absoluteRoughness : R;
  arg_kinematicViscOfFluid : R;
  arg_targetFlowRate : R;
  arg_appurtenanceKValues : list R
}.

(** [new PipeSection(...args)]. *)
Definition new (a : ConstructorParameters) : Completion t :=
  constructor (arg_p1 a) (arg_p2 a) (arg_v1 a) (arg_v2 a)
    (arg_z1_min a) (arg_z2_min a) (arg_z1_max a) (arg_z2_max a)
    (arg_length a) (arg_diameter a) (arg_absoluteRoughness a)
    (arg_kinematicViscOfFluid a) (arg_targetFlowRate a)
    (arg_appurtenanceKValues a).

Section Methods.
Context {host : Host}.
Variable this : t.

(** Over the real numbers the last sample [(target / 20) * 20] is the
    target; on binary64 numbers each sample is a rounded product, see
    [Binary64.Banded.PipeSection.generateFlowRange]. *)
Definition generateFlowRange : list R :=
  let step := targetFlowRate this / 20 in
  Array_from 20 (fun i => step * (INR i + 1)).

Definition calculateFrictionFactor (flowRate : R) : R :=
  let reynoldsNumber :=
    Math_max
      ((flowRate / hydraulicArea this)
       * (diameter this / kinematicViscOfFluid this))
      1e-6 in
  if lt reynoldsNumber 2300 then 64 / reynoldsNumber
  else
    let roughnessTerm := relativeRoughness this / 3.7 in
    let calcTerm (prev : option R) : R :=
      let reynoldsTerm :=
        if truthy prev then (2.51 / reynoldsNumber) * to_number prev
        else 12 / reynoldsNumber in
      -2 * Math_log10 (roughnessTerm + reynoldsTerm) in
    let a := calcTerm None in
    let b := calcTerm (Some a) in
    let c := calcTerm (Some b) in
    Math_pow (a - Math_pow (b - a) 2 / (c - 2 * b + a)) (-2).

Definition calculateMajorLosses (flowRate : R) : R :=
  let frictionFactor := calculateFrictionFactor flowRate in
  (frictionFactor * (length this / diameter this) * Math_pow flowRate 2)
  / (2 * 32.17 * Math_pow (hydraulicArea this) 2).

Definition calculateMinorLosses (flowRate : R) : R :=
  let kSum := reduce_sum (appurtenanceKValues this) in
  (kSum * Math_pow flowRate 2)
  / (2 * 32.17 * Math_pow (hydraulicArea this) 2).

(** The two heads share [totalLosses]; on binary64 numbers each of the two
    sums is rounded on its own, see
    [Binary64.Banded.PipeSection.calculateTDH]. *)
Definition calculateTDH (flowRate : R) : R * R :=
  let adjustedFlowRate := Math_max flowRate 1e-6 in
  let pressureHead := (p2 this - p1 this) * 2.31 in
  let velocityHead :=
    if hasVelocityHead this
    then Math_pow adjustedFlowRate 2
         / (2 * 32.17 * Math_pow (hydraulicArea this) 2)
    else 0 in
  let staticHeadMax := z2_max this - z1_min this in
  let staticHeadMin := z2_min this - z1_max this in
  let majorLosses := calculateMajorLosses adjustedFlowRate in
  let minorLosses := calculateMinorLosses adjustedFlowRate in
  let totalLosses :=
    majorLosses + minorLosses + velocityHead + pressureHead in
  (staticHeadMax + totalLosses, staticHeadMin + totalLosses).

(** The data points [[maxTDH, minTDH, flowRate]]. *)
Definition execute : list (R * R * R) :=
  map (fun flowRate =>
         let '(maxTDH, minTDH) := calculateTDH flowRate in
         (maxTDH, minTDH, flowRate))
      generateFlowRange.
End Methods.

End PipeSection.

Module System.

Record t : Type := mk { pipeSections : list PipeSection.t }.

(** [new System()]. *)
Definition constructor : t := {| pipeSections := [] |}.

Section Methods.
Context {host : Host}.
#[local] Open Scope js_scope.

(** The system curve [[maxTDH, minTDH, flowRate]], one tuple per flow
    rate of the first section. *)
Definition calcTDH : M t (list (R * R * R)) :=
  sections <- gets pipeSections ;;
  if Nat.eqb (List.length sections) 0 then
    throw (Error "No pipe sections exist.")
  else
    first <- receiver_at sections 0 ;;
    let flowRateCount := List.length (PipeSection.execute first) in
    let systemCurve := Array_fill flowRateCount (0, 0, 0) in
    for_range flowRateCount
      (fun systemCurve i =>
         sections <- gets pipeSections ;;
         '(cumulativeMinTDH, cumulativeMaxTDH, flowRate) <-
           for_of sections
             (fun locals pipeSection =>
                let '(cumulativeMinTDH, cumulativeMaxTDH, _) := locals in
                '(maxTDH, minTDH, currentFlowRate) <-
                  destructure_at (PipeSection.execute pipeSection) i ;;
                ret (cumulativeMinTDH + minTDH,
                     cumulativeMaxTDH + maxTDH,
                     currentFlowRate))
             (0, 0, 0) ;;
         ret (assign systemCurve i
                (cumulativeMaxTDH, cumulativeMinTDH, flowRate)))
      systemCurve.
End Methods.

#[local] Open Scope js_scope.

Definition addPipeSection
  (pipeSectionParams : PipeSection.ConstructorParameters) : M t unit :=
  pipeSection <- lift (PipeSection.new pipeSectionParams) ;;
  modify (fun this =>
            {| pipeSections := pipeSections this ++ [pipeSection] |}).

Definition removePipeSection (index : Z) : M t unit :=
  sections <- gets pipeSections ;;
  if (index <? 0)%Z || (index >=? Z.of_nat (List.length sections))%Z then
    throw (Error "Invalid pipe section index.")
  else
    modify (fun this =>
              {| pipeSections :=
                   splice1 (pipeSections this) (Z.to_nat index) |}).

Definition modifyPipeSection
  (index : Z) (newParams : PipeSection.ConstructorParameters) : M t unit :=
  sections <- gets pipeSections ;;
  if (index <? 0)%Z || (index >=? Z.of_nat (List.length sections))%Z then
    throw (Error "Invalid pipe section index.")
  else
    pipeSection <- lift (PipeSection.new newParams) ;;
    modify (fun this =>
              {| pipeSections :=
                   assign (pipeSections this) (Z.to_nat index)
                     pipeSection |}).

Definition getPipeSections : M t (list PipeSection.t) :=
  gets pipeSections.

End System.

End Banded.

(** ** The single-valued model: [models/Pipeline.ts], [models/Bernoullis.ts],
       [SerghidesApproximation] and the single-valued [PipeSection] *)

Module Single.

(** Modelled from the spec: the enumeration [ApproximationMethod] of
    [models/enums/ApproximationMethod], which is imported by the sources
    but is not among them.  The spec gives it as
    [approximationMethod: enum{SERGHIDE, COLEBROOK}]. *)
Inductive ApproximationMethod : Type :=
| SERGHIDE
| COLEBROOK.

(** [models/interfaces/Approximation.ts]: an object with one method. *)
Record Approximation : Type := {
  calculateFrictionFactor : R -> R -> R
}.

Module SerghidesApproximation.
Section Methods.
Context {host : Host}.

Definition calculateFrictionFactor
  (relativeRoughness reynoldsNum : R) : R :=
  if lt reynoldsNum 2300 then 64 / reynoldsNum
  else
    let roughnessTerm := relativeRoughness / 3.7 in
    let calculateTerm (prev : option R) : R :=
      let reynoldsTerm :=
        if truthy prev then (2.51 * to_number prev) / reynoldsNum
        else 12 / reynoldsNum in
      -2 * math_log10 (roughnessTerm + reynoldsTerm) in
    let a := calculateTerm None in
    let b := calculateTerm (Some a) in
    let c := calculateTerm (Some b) in
    Math_pow (a - Math_pow (b - a) 2 / (c - 2 * b + a)) (-2).

(** [new SerghidesApproximation()]. *)
Definition new : Approximation :=
  {| Single.calculateFrictionFactor := calculateFrictionFactor |}.
End Methods.
End SerghidesApproximation.

Module PipeSection.

(** The private fields, under the names of their getters. *)
Record t : Type := mk {
  initialPressure : R;
  finalPressure : R;
  initialVelocity : R;
  finalVelocity : R;
  targetFlowRate : R;
  initialElevation : R;
  finalElevation : R;
  length : R;
  diameter : R;
  absoluteRoughness : R;
  kinematicViscosity : R;
  kValues : list R
}.

(** The guards in the order of the source; as for the banded class, NaN
    and [undefined] pass them, which
    [Binary64.Single.PipeSection.constructor] models. *)
Definition constructor
  (_initialPressure _finalPressure _initialVelocity _finalVelocity : R)
  (_targetFlowRate _initialElevation _finalElevation : R)
  (_length _diameter _absoluteRoughness _kinematicViscosity : R)
  (_kValues : list R) : Completion t :=
  if lt _diameter 0 then
    Throw (Error "Pipe diameter must be a positive integer")
  else if le _length 0 then
    Throw (Error "Pipe length must be a positive integer")
  else if le _absoluteRoughness 0 then
    Throw (Error "Pipe absoluteRoughness must be a positive integer")
  else if le _kinematicViscosity 0 then
    Throw (Error "Pipe kinematicViscosity must be a positive integer")
  else
    Normal {|
      initialPressure := _initialPressure;
      finalPressure := _finalPressure;
      initialVelocity := _initialVelocity;
      finalVelocity := _finalVelocity;
      targetFlowRate := _targetFlowRate;
      initialElevation := _initialElevation;
      finalElevation := _finalElevation;
      length := _length;
      diameter := _diameter;
      absoluteRoughness := _absoluteRoughness;
      kinematicViscosity := _kinematicViscosity;
      kValues := _kValues
    |}.

(** [ConstructorParameters<typeof PipeSection>]. *)
Record ConstructorParameters : Type := params {
  arg_initialPressure : R;
  arg_finalPressure : R;
  arg_initialVelocity : R;
  arg_finalVelocity : R;
  arg_targetFlowRate : R;
  arg_initialElevation : R;
  arg_finalElevation : R;
  arg_length : R;
  arg_diameter : R;
  arg_absoluteRoughness : R;
  arg_kinematicViscosity : R;
  arg_kValues : list R
}.

(** [new PipeSection(...args)]. *)
Definition new (a : ConstructorParameters) : Completion t :=
  constructor (arg_initialPressure a) (arg_finalPressure a)
    (arg_initialVelocity a) (arg_finalVelocity a)
    (arg_targetFlowRate a) (arg_initialElevation a)
    (arg_finalElevation a) (arg_length a) (arg_diameter a)
    (arg_absoluteRoughness a) (arg_kinematicViscosity a)
    (arg_kValues a).

End PipeSection.

Module Bernoullis.

Record t : Type := mk {
  _approximationMethod : Approximation;
  _pipeSection : PipeSection.t
}.

Definition constructor
  (_approximationMethod : option Approximation)
  (_pipeSection : option PipeSection.t) : Completion t :=
  match _approximationMethod with
  | None => Throw (Error "Approximation method must be supplied.")
  | Some method =>
      match _pipeSection with
      | None => Throw (Error "PipeSection must be supplied.")
      | Some pipeSection =>
          Normal {| _approximationMethod := method;
                    _pipeSection := pipeSection |}
      end
  end.

Section Methods.
Variable this : t.

Definition calculateStaticHead : R :=
  PipeSection.finalElevation (_pipeSection this)
  - PipeSection.initialElevation (_pipeSection this).

Definition calculatePressureHead (isImperial : bool) : R :=
  let correctionFactor := if negb isImperial then 10.2 else 2.31 in
  (PipeSection.finalPressure (_pipeSection this)
   - PipeSection.initialPressure (_pipeSection this))
  * correctionFactor.

Definition calculateVelocityHead (isImperial : bool) : R :=
  let gravity := if negb isImperial then 9.81 else 32.17 in
  (PipeSection.finalVelocity (_pipeSection this)
   - PipeSection.initialVelocity (_pipeSection this))
  / (2 * gravity).

(** Division is total over the real numbers; at a diameter of 0 the engine
    divides by zero and [Math.max] returns NaN, which
    [Binary64.Single.Bernoullis.calculateReynoldsNumber] models.  Statements
    about the value of this method assume a positive diameter. *)
Definition calculateReynoldsNumber (flowRate : R) : R :=
  let velocity :=
    flowRate
    / ((math_pi * Math_pow (PipeSection.diameter (_pipeSection this)) 2)
       / 4) in
  Math_max
    ((velocity * PipeSection.diameter (_pipeSection this))
     / PipeSection.kinematicViscosity (_pipeSection this))
    1e-6.

Definition calculateMajorLosses
  (isImperial : bool) (flowRate relativeRoughness : R) : R :=
  let gravity := if negb isImperial then 9.81 else 32.17 in
  (calculateFrictionFactor (_approximationMethod this)
     relativeRoughness (calculateReynoldsNumber flowRate)
   * (PipeSection.length (_pipeSection this)
      / PipeSection.diameter (_pipeSection this))
   * Math_pow flowRate 2)
  / ((2 * gravity * math_pi
      * Math_pow (PipeSection.diameter (_pipeSection this)) 2)
     / 4).

Definition calculateMinorLosses
  (flowRate : R) (isImperial : bool) : R :=
  let gravity := if isImperial then 32.17 else 9.81 in
  let sum := reduce_sum (PipeSection.kValues (_pipeSection this)) in
  (sum * Math_pow flowRate 2)
  / ((2 * gravity * math_pi
      * Math_pow (PipeSection.diameter (_pipeSection this)) 2)
     / 4).

Definition calculateTDH
  (isImperial : bool) (flowRate relativeRoughness : R) : R :=
  let staticHead := calculateStaticHead in
  let pressureHead := calculatePressureHead isImperial in
  let velocityHead := calculateVelocityHead isImperial in
  let majorLosses :=
    calculateMajorLosses isImperial flowRate relativeRoughness in
  let minorLosses := calculateMinorLosses flowRate isImperial in
  staticHead + pressureHead + velocityHead + majorLosses + minorLosses.

(** The data points [[tdh, flowRate]]. *)
Definition execute (flowRates : list R) (isImperial : bool)
  : list (R * R) :=
  let relativeRoughness :=
    PipeSection.absoluteRoughness (_pipeSection this)
    / PipeSection.diameter (_pipeSection this) in
  map (fun flowRate =>
         let tdh := calculateTDH isImperial flowRate relativeRoughness in
         (tdh, flowRate))
      flowRates.
End Methods.

End Bernoullis.

(** The methods of the single-valued [PipeSection] that evaluate it; they
    come after [Bernoullis], which they instantiate. *)
Module PipeSectionMethods.
Section Methods.
Context {host : Host}.
#[local] Open Scope completion_scope.

(** [execute] as [Pipeline.execute] calls it,
    [pipeSection.execute(flowRates, method, isImperial)]: the array of flow
    rates arrives as [approximationMethod] and the strategy object as
    [isImperial].  The array is not [undefined], so the default is not
    taken, and it is no value of the enumeration, so the [switch] selects no
    case: [method] is still [null] at the test behind it, which throws.
    The call of [Bernoullis] behind the test would hand the strategy object
    to [flowRates.map]. *)
Definition execute_with_flowRates
  (this : PipeSection.t) (flowRates : list R) (method : Approximation)
  (isImperial : bool) : Completion (list (R * R)) :=
  let method : option Approximation := None in
  match method with
  | None => Throw (Error "No approximation method defined.")
  | Some _ =>
      bernoullis <- Bernoullis.constructor method (Some this) ;;
      Throw (TypeError "flowRates.map is not a function")
  end.

(** The one-argument [execute(isImperial)] of the revision of
    [Bernoullis] that the class in hand instantiates; that revision is
    not among the sources, so it stays a parameter. *)
Variable Bernoullis_execute :
  Bernoullis.t -> bool -> Completion (list (R * R)).

(** [execute(approximationMethod = SERGHIDE, isImperial = true)]; an
    argument left [undefined] is [None]. *)
Definition execute
  (this : PipeSection.t)
  (approximationMethod : option ApproximationMethod)
  (isImperial : option bool) : Completion (list (R * R)) :=
  let approximationMethod :=
    match approximationMethod with Some m => m | None => SERGHIDE end in
  let isImperial :=
    match isImperial with Some b => b | None => true end in
  method <-
    match approximationMethod with
    | SERGHIDE => Normal (Some SerghidesApproximation.new)
    | COLEBROOK => Throw (Error "Colebook method not implemented.")
    end ;;
  match method with
  | None => Throw (Error "No approximation method defined.")
  | Some _ =>
      bernoullis <- Bernoullis.constructor method (Some this) ;;
      Bernoullis_execute bernoullis isImperial
  end.
End Methods.
End PipeSectionMethods.

Module Pipeline.

Record t : Type := mk { pipeSections : list PipeSection.t }.

(** [new Pipeline(pipeSections = [])]. *)
Definition constructor (pipeSections : option (list PipeSection.t)) : t :=
  {| pipeSections :=
       match pipeSections with Some l => l | None => [] end |}.

(** Over the real numbers sample 10 is the target; on binary64 numbers
    each sample is a rounded product, see
    [Binary64.Single.Pipeline.generateFlowRange]. *)
Definition generateFlowRange (targetFlowRate : R) : list R :=
  let step := targetFlowRate / 10 in
  Array_from 20 (fun i => step * INR i).

Section Methods.
Context {host : Host}.
#[local] Open Scope js_scope.

(** The system curve [[cumulativeTDH, flowRate]]; an
    [approximationMethod] left [undefined] is [None]. *)
Definition execute
  (targetFlowRate : R)
  (approximationMethod : option ApproximationMethod)
  (isImperial : bool) : M t (list (R * R)) :=
  let approximationMethod :=
    match approximationMethod with Some m => m | None => SERGHIDE end in
  sections <- gets pipeSections ;;
  if Nat.eqb (List.length sections) 0 then
    throw (Error "No pipe sections exist.")
  else
    method <-
      match approximationMethod with
      | SERGHIDE => ret (Some SerghidesApproximation.new)
      | COLEBROOK => throw (Error "Colebook method not implemented.")
      end ;;
    match method with
    | None => throw (Error "No approximation method defined.")
    | Some method =>
        let flowRates := generateFlowRange targetFlowRate in
        let flowRateCount := 20%nat in
        let systemCurve := Array_fill flowRateCount (0, 0) in
        for_range flowRateCount
          (fun systemCurve i =>
             sections <- gets pipeSections ;;
             '(cumulativeTDH, flowRate) <-
               for_of sections
                 (fun locals pipeSection =>
                    let '(cumulativeTDH, _) := locals in
                    rows <-
                      lift (PipeSectionMethods.execute_with_flowRates
                              pipeSection flowRates method isImperial) ;;
                    '(tdh, currentFlowRate) <- destructure_at rows i ;;
                    ret (cumulativeTDH + tdh, currentFlowRate))
                 (0, 0) ;;
             ret (assign systemCurve i (cumulativeTDH, flowRate)))
          systemCurve
    end.
End Methods.

#[local] Open Scope js_scope.

Definition addPipeSection
  (pipeSectionParams : PipeSection.ConstructorParameters) : M t unit :=
  pipeSection <- lift (PipeSection.new pipeSectionParams) ;;
  modify (fun this =>
            {| pipeSections := pipeSections this ++ [pipeSection] |}).

Definition removePipeSection (index : Z) : M t unit :=
  sections <- gets pipeSections ;;
  if (index <? 0)%Z || (index >=? Z.of_nat (List.length sections))%Z then
    throw (Error "Invalid pipe section index.")
  else
    modify (fun this =>
              {| pipeSections :=
                   splice1 (pipeSections this) (Z.to_nat index) |}).

Definition modifyPipeSection
  (index : Z) (newParams : PipeSection.ConstructorParameters) : M t unit :=
  sections <- gets pipeSections ;;
  if (index <? 0)%Z || (index >=? Z.of_nat (List.length sections))%Z then
    throw (Error "Invalid pipe section index.")
  else
    pipeSection <- lift (PipeSection.new newParams) ;;
    modify (fun this =>
              {| pipeSections :=
                   assign (pipeSections this) (Z.to_nat index)
                     pipeSection |}).

Definition getPipeSections : M t (list PipeSection.t) :=
  gets pipeSections.

End Pipeline.

End Single.


(** ** [Pipeline] over the class at [./PipeSection]

    [models/Pipeline.ts] imports its section class from [./PipeSection], the
    file of the banded class.  Its [execute()] declares no parameter, so the
    three arguments that [Pipeline.execute] passes are dropped, and each of
    its rows is [[maxTDH, minTDH, flowRate]]: the pattern
    [[tdh, currentFlowRate]] takes the first two elements.  The methods that
    manage the sections are those of [Single.Pipeline], word for word. *)

Module PipelineLaidOut.

Record t : Type := mk { pipeSections : list Banded.PipeSection.t }.

Section Methods.
Context {host : Host}.
#[local] Open Scope js_scope.

Definition execute
  (targetFlowRate : R)
  (approximationMethod : option Single.ApproximationMethod)
  (isImperial : bool) : M t (list (R * R)) :=
  let approximationMethod :=
    match approximationMethod with
    | Some m => m
    | None => Single.SERGHIDE
    end in
  sections <- gets pipeSections ;;
  if Nat.eqb (List.length sections) 0 then
    throw (Error "No pipe sections exist.")
  else
    method <-
      match approximationMethod with
      | Single.SERGHIDE => ret (Some Single.SerghidesApproximation.new)
      | Single.COLEBROOK => throw (Error "Colebook method not implemented.")
      end ;;
    match method with
    | None => throw (Error "No approximation method defined.")
    | Some method =>
        let flowRates := Single.Pipeline.generateFlowRange targetFlowRate in
        let flowRateCount := 20%nat in
        let systemCurve := Array_fill flowRateCount (0, 0) in
        for_range flowRateCount
          (fun systemCurve i =>
             sections <- gets pipeSections ;;
             '(cumulativeTDH, flowRate) <-
               for_of sections
                 (fun locals pipeSection =>
                    let '(cumulativeTDH, _) := locals in
                    '(tdh, currentFlowRate, _) <-
                      destructure_at (Banded.PipeSection.execute pipeSection)
                        i ;;
                    ret (cumulativeTDH + tdh, currentFlowRate))
                 (0, 0) ;;
             ret (assign systemCurve i (cumulativeTDH, flowRate)))
          systemCurve
    end.
End Methods.

#[local] Open Scope js_scope.

Definition addPipeSection
  (pipeSectionParams : Banded.PipeSection.ConstructorParameters)
  : M t unit :=
  pipeSection <- lift (Banded.PipeSection.new pipeSectionParams) ;;
  modify (fun this =>
            {| pipeSections := pipeSections this ++ [pipeSection] |}).

End PipelineLaidOut.

(** ** The program on binary64 numbers

    The models above state which real-number expressions the program
    evaluates.  The engine evaluates them on binary64 numbers: every
    operation rounds, a comparison with NaN is false, and a division by zero
    gives an infinity or NaN.  This module runs the banded class, the
    aggregation of [System] and the two range generators on the primitive
    binary64 numbers, operation for operation, so that a statement of exact
    equality can be put to the test. *)

Module Binary64.

#[local] Open Scope float_scope.

(** The number of an array index. *)
Definition of_index (i : nat) : float :=
  PrimFloat.of_uint63 (Uint63.of_Z (Z.of_nat i)).

Definition strict_ne (a b : float) : bool := negb (a =? b).

(** Truthiness of a [number | null]: [null], the zeros and NaN are falsy. *)
Definition truthy (v : option float) : bool :=
  match v with
  | Some x => negb ((x =? 0) || PrimFloat.is_nan x)
  | None => false
  end.

Definition to_number (v : option float) : float :=
  match v with
  | Some x => x
  | None => 0
  end.

(** [Math.max] of two numbers: NaN when either is NaN, and the positive
    zero of two zeros. *)
Definition Math_max (a b : float) : float :=
  if PrimFloat.is_nan a || PrimFloat.is_nan b then nan
  else if a <? b then b
  else if b <? a then a
  else if a =? 0 then a + b
  else a.

Definition math_pi : float := 3.141592653589793.

(** [Math.pow] and [Math.log10] are implementation-approximated. *)
Class Host : Type := {
  Math_pow : float -> float -> float;
  Math_log10 : float -> float
}.

(** A host whose square is the correctly rounded product [x * x], as the
    engines compute [Math.pow(x, 2)]; the other powers and the logarithm
    are left to the two parameters. *)
Definition squaringHost
  (pow : float -> float -> float) (log10 : float -> float) : Host := {|
  Math_pow := fun x y => if y =? 2 then x * x else pow x y;
  Math_log10 := log10
|}.

Definition reduce_sum (xs : list float) : float :=
  fold_left (fun sum k => sum + k) xs 0.

Module Banded.

Module PipeSection.

Record t : Type := mk {
  p1 : float;
  p2 : float;
  v1 : float;
  v2 : float;
  z1_min : float;
  z2_min : float;
  z1_max : float;
  z2_max : float;
  length : float;
  diameter : float;
  absoluteRoughness : float;
  kinematicViscOfFluid : float;
  targetFlowRate : float;
  appurtenanceKValues : list float;
  hydraulicArea : float;
  relativeRoughness : float;
  hasVelocityHead : bool
}.

Section Methods.
Context {host : Host}.

Definition constructor
  (p1 p2 v1 v2 z1_min z2_min z1_max z2_max : float)
  (length diameter absoluteRoughness kinematicViscOfFluid : float)
  (targetFlowRate : float) (appurtenanceKValues : list float)
  : Completion t :=
  if diameter <=? 0 then
    Throw (Error "Pipe diameter must be greater than 0.")
  else if length <=? 0 then
    Throw (Error "Pipe length must be greater than 0.")
  else if absoluteRoughness <? 0 then
    Throw (Error "Absolute roughness must be non-negative.")
  else if kinematicViscOfFluid <=? 0 then
    Throw (Error "Kinematic viscosity must be greater than 0.")
  else if Nat.eqb (List.length appurtenanceKValues) 0 then
    Throw (Error "Appurtenance K values must not be empty.")
  else if (z2_max <? z1_min) || (z2_min <? z1_max) then
    Throw (Error "Elevation ranges are invalid.")
  else
    Normal {|
      p1 := p1; p2 := p2; v1 := v1; v2 := v2;
      z1_min := z1_min; z2_min := z2_min;
      z1_max := z1_max; z2_max := z2_max;
      length := length; diameter := diameter;
      absoluteRoughness := absoluteRoughness;
      kinematicViscOfFluid := kinematicViscOfFluid;
      targetFlowRate := targetFlowRate;
      appurtenanceKValues := appurtenanceKValues;
      hydraulicArea := (math_pi * Math_pow diameter 2) / 4;
      relativeRoughness := absoluteRoughness / diameter;
      hasVelocityHead := strict_ne v2 v1
    |}.

Variable this : t.

Definition generateFlowRange : list float :=
  let step := targetFlowRate this / 20 in
  Array_from 20 (fun i => step * (of_index i + 1)).

Definition calculateFrictionFactor (flowRate : float) : float :=
  let reynoldsNumber :=
    Math_max
      ((flowRate / hydraulicArea this)
       * (diameter this / kinematicViscOfFluid this))
      1e-6 in
  if reynoldsNumber <? 2300 then 64 / reynoldsNumber
  else
    let roughnessTerm := relativeRoughness this / 3.7 in
    let calcTerm (prev : option float) : float :=
      let reynoldsTerm :=
        if truthy prev then (2.51 / reynoldsNumber) * to_number prev
        else 12 / reynoldsNumber in
      -2 * Math_log10 (roughnessTerm + reynoldsTerm) in
    let a := calcTerm None in
    let b := calcTerm (Some a) in
    let c := calcTerm (Some b) in
    Math_pow (a - Math_pow (b - a) 2 / (c - 2 * b + a)) (-2).

Definition calculateMajorLosses (flowRate : float) : float :=
  let frictionFactor := calculateFrictionFactor flowRate in
  (frictionFactor * (length this / diameter this) * Math_pow flowRate 2)
  / (2 * 32.17 * Math_pow (hydraulicArea this) 2).

Definition calculateMinorLosses (flowRate : float) : float :=
  let kSum := reduce_sum (appurtenanceKValues this) in
  (kSum * Math_pow flowRate 2)
  / (2 * 32.17 * Math_pow (hydraulicArea this) 2).

Definition calculateTDH (flowRate : float) : float * float :=
  let adjustedFlowRate := Math_max flowRate 1e-6 in
  let pressureHead := (p2 this - p1 this) * 2.31 in
  let velocityHead :=
    if hasVelocityHead this
    then Math_pow adjustedFlowRate 2
         / (2 * 32.17 * Math_pow (hydraulicArea this) 2)
    else 0 in
  let staticHeadMax := z2_max this - z1_min this in
  let staticHeadMin := z2_min this - z1_max this in
  let majorLosses := calculateMajorLosses adjustedFlowRate in
  let minorLosses := calculateMinorLosses adjustedFlowRate in
  let totalLosses :=
    majorLosses + minorLosses + velocityHead + pressureHead in
  (staticHeadMax + totalLosses, staticHeadMin + totalLosses).

Definition execute : list (float * float * float) :=
  map (fun flowRate =>
         let '(maxTDH, minTDH) := calculateTDH flowRate in
         (maxTDH, minTDH, flowRate))
      generateFlowRange.
End Methods.

End PipeSection.

Module System.

Record t : Type := mk { pipeSections : list PipeSection.t }.

Section Methods.
Context {host : Host}.
#[local] Open Scope js_scope.

Definition calcTDH : M t (list (float * float * float)) :=
  sections <- gets pipeSections ;;
  if Nat.eqb (List.length sections) 0 then
    throw (Error "No pipe sections exist.")
  else
    first <- receiver_at sections 0 ;;
    let flowRateCount := List.length (PipeSection.execute first) in
    let systemCurve := Array_fill flowRateCount (0, 0, 0) in
    for_range flowRateCount
      (fun systemCurve i =>
         sections <- gets pipeSections ;;
         '(cumulativeMinTDH, cumulativeMaxTDH, flowRate) <-
           for_of sections
             (fun locals pipeSection =>
                let '(cumulativeMinTDH, cumulativeMaxTDH, _) := locals in
                '(maxTDH, minTDH, currentFlowRate) <-
                  destructure_at (PipeSection.execute pipeSection) i ;;
                ret (cumulativeMinTDH + minTDH,
                     cumulativeMaxTDH + maxTDH,
                     currentFlowRate))
             (0, 0, 0) ;;
         ret (assign systemCurve i
                (cumulativeMaxTDH, cumulativeMinTDH, flowRate)))
      systemCurve.
End Methods.

End System.

End Banded.

Module Single.

Module PipeSection.

Record t : Type := mk {
  initialPressure : float;
  finalPressure : float;
  initialVelocity : float;
  finalVelocity : float;
  targetFlowRate : float;
  initialElevation : float;
  finalElevation : float;
  length : float;
  diameter : float;
  absoluteRoughness : float;
  kinematicViscosity : float;
  kValues : list float
}.

Definition constructor
  (_initialPressure _finalPressure _initialVelocity _finalVelocity : float)
  (_targetFlowRate _initialElevation _finalElevation : float)
  (_length _diameter _absoluteRoughness _kinematicViscosity : float)
  (_kValues : list float) : Completion t :=
  if _diameter <? 0 then
    Throw (Error "Pipe diameter must be a positive integer")
  else if _length <=? 0 then
    Throw (Error "Pipe length must be a positive integer")
  else if _absoluteRoughness <=? 0 then
    Throw (Error "Pipe absoluteRoughness must be a positive integer")
  else if _kinematicViscosity <=? 0 then
    Throw (Error "Pipe kinematicViscosity must be a positive integer")
  else
    Normal {|
      initialPressure := _initialPressure;
      finalPressure := _finalPressure;
      initialVelocity := _initialVelocity;
      finalVelocity := _finalVelocity;
      targetFlowRate := _targetFlowRate;
      initialElevation := _initialElevation;
      finalElevation := _finalElevation;
      length := _length;
      diameter := _diameter;
      absoluteRoughness := _absoluteRoughness;
      kinematicViscosity := _kinematicViscosity;
      kValues := _kValues
    |}.

End PipeSection.

Module Bernoullis.

(** The method reads the section of the object only, which stands for the
    object here. *)
Section Methods.
Context {host : Host}.
Variable _pipeSection : PipeSection.t.

Definition calculateReynoldsNumber (flowRate : float) : float :=
  let velocity :=
    flowRate
    / ((math_pi * Math_pow (PipeSection.diameter _pipeSection) 2) / 4) in
  Math_max
    ((velocity * PipeSection.diameter _pipeSection)
     / PipeSection.kinematicViscosity _pipeSection)
    1e-6.
End Methods.

End Bernoullis.

Module Pipeline.

Definition generateFlowRange (targetFlowRate : float) : list float :=
  let step := targetFlowRate / 10 in
  Array_from 20 (fun i => step * of_index i).

End Pipeline.

End Single.

End Binary64.


(** ** The accessors of the single-valued [PipeSection]

    Each private field has a getter that returns it and a setter that
    assigns it; the object is the state of the method. *)

Module SingleAccessors.

Definition get_initialPressure : M Single.PipeSection.t (R) :=
  gets Single.PipeSection.initialPressure.

Definition set_initialPressure (value : R) : M Single.PipeSection.t unit :=
  modify (fun this =>
    {| Single.PipeSection.initialPressure := value;
       Single.PipeSection.finalPressure := Single.PipeSection.finalPressure this;
       Single.PipeSection.initialVelocity := Single.PipeSection.initialVelocity this;
       Single.PipeSection.finalVelocity := Single.PipeSection.finalVelocity this;
       Single.PipeSection.targetFlowRate := Single.PipeSection.targetFlowRate this;
       Single.PipeSection.initialElevation := Single.PipeSection.initialElevation this;
       Single.PipeSection.finalElevation := Single.PipeSection.finalElevation this;
       Single.PipeSection.length := Single.PipeSection.length this;
       Single.PipeSection.diameter := Single.PipeSection.diameter this;
       Single.PipeSection.absoluteRoughness := Single.PipeSection.absoluteRoughness this;
       Single.PipeSection.kinematicViscosity := Single.PipeSection.kinematicViscosity this;
       Single.PipeSection.kValues := Single.PipeSection.kValues this |}).

Definition get_finalPressure : M Single.PipeSection.t (R) :=
  gets Single.PipeSection.finalPressure.

Definition set_finalPressure (value : R) : M Single.PipeSection.t unit :=
  modify (fun this =>
    {| Single.PipeSection.initialPressure := Single.PipeSection.initialPressure this;
       Single.PipeSection.finalPressure := value;
       Single.PipeSection.initialVelocity := Single.PipeSection.initialVelocity this;
       Single.PipeSection.finalVelocity := Single.PipeSection.finalVelocity this;
       Single.PipeSection.targetFlowRate := Single.PipeSection.targetFlowRate this;
       Single.PipeSection.initialElevation := Single.PipeSection.initialElevation this;
       Single.PipeSection.finalElevation := Single.PipeSection.finalElevation this;
       Single.PipeSection.length := Single.PipeSection.length this;
       Single.PipeSection.diameter := Single.PipeSection.diameter this;
       Single.PipeSection.absoluteRoughness := Single.PipeSection.absoluteRoughness this;
       Single.PipeSection.kinematicViscosity := Single.PipeSection.kinematicViscosity this;
       Single.PipeSection.kValues := Single.PipeSection.kValues this |}).

Definition get_initialVelocity : M Single.PipeSection.t (R) :=
  gets Single.PipeSection.initialVelocity.

Definition set_initialVelocity (value : R) : M Single.PipeSection.t unit :=
  modify (fun this =>
    {| Single.PipeSection.initialPressure := Single.PipeSection.initialPressure this;
       Single.PipeSection.finalPressure := Single.PipeSection.finalPressure this;
       Single.PipeSection.initialVelocity := value;
       Single.PipeSection.finalVelocity := Single.PipeSection.finalVelocity this;
       Single.PipeSection.targetFlowRate := Single.PipeSection.targetFlowRate this;
       Single.PipeSection.initialElevation := Single.PipeSection.initialElevation this;
       Single.PipeSection.finalElevation := Single.PipeSection.finalElevation this;
       Single.PipeSection.length := Single.PipeSection.length this;
       Single.PipeSection.diameter := Single.PipeSection.diameter this;
       Single.PipeSection.absoluteRoughness := Single.PipeSection.absoluteRoughness this;
       Single.PipeSection.kinematicViscosity := Single.PipeSection.kinematicViscosity this;
       Single.PipeSection.kValues := Single.PipeSection.kValues this |}).

Definition get_finalVelocity : M Single.PipeSection.t (R) :=
  gets Single.PipeSection.finalVelocity.

Definition set_finalVelocity (value : R) : M Single.PipeSection.t unit :=
  modify (fun this =>
    {| Single.PipeSection.initialPressure := Single.PipeSection.initialPressure this;
       Single.PipeSection.finalPressure := Single.PipeSection.finalPressure this;
       Single.PipeSection.initialVelocity := Single.PipeSection.initialVelocity this;
       Single.PipeSection.finalVelocity := value;
       Single.PipeSection.targetFlowRate := Single.PipeSection.targetFlowRate this;
       Single.PipeSection.initialElevation := Single.PipeSection.initialElevation this;
       Single.PipeSection.finalElevation := Single.PipeSection.finalElevation this;
       Single.PipeSection.length := Single.PipeSection.length this;
       Single.PipeSection.diameter := Single.PipeSection.diameter this;
       Single.PipeSection.absoluteRoughness := Single.PipeSection.absoluteRoughness this;
       Single.PipeSection.kinematicViscosity := Single.PipeSection.kinematicViscosity this;
       Single.PipeSection.kValues := Single.PipeSection.kValues this |}).

Definition get_targetFlowRate : M Single.PipeSection.t (R) :=
  gets Single.PipeSection.targetFlowRate.

Definition set_targetFlowRate (value : R) : M Single.PipeSection.t unit :=
  modify (fun this =>
    {| Single.PipeSection.initialPressure := Single.PipeSection.initialPressure this;
       Single.PipeSection.finalPressure := Single.PipeSection.finalPressure this;
       Single.PipeSection.initialVelocity := Single.PipeSection.initialVelocity this;
       Single.PipeSection.finalVelocity := Single.PipeSection.finalVelocity this;
       Single.PipeSection.targetFlowRate := value;
       Single.PipeSection.initialElevation := Single.PipeSection.initialElevation this;
       Single.PipeSection.finalElevation := Single.PipeSection.finalElevation this;
       Single.PipeSection.length := Single.PipeSection.length this;
       Single.PipeSection.diameter := Single.PipeSection.diameter this;
       Single.PipeSection.absoluteRoughness := Single.PipeSection.absoluteRoughness this;
       Single.PipeSection.kinematicViscosity := Single.PipeSection.kinematicViscosity this;
       Single.PipeSection.kValues := Single.PipeSection.kValues this |}).

Definition get_initialElevation : M Single.PipeSection.t (R) :=
  gets Single.PipeSection.initialElevation.

Definition set_initialElevation (value : R) : M Single.PipeSection.t unit :=
  modify (fun this =>
    {| Single.PipeSection.initialPressure := Single.PipeSection.initialPressure this;
       Single.PipeSection.finalPressure := Single.PipeSection.finalPressure this;
       Single.PipeSection.initialVelocity := Single.PipeSection.initialVelocity this;
       Single.PipeSection.finalVelocity := Single.PipeSection.finalVelocity this;
       Single.PipeSection.targetFlowRate := Single.PipeSection.targetFlowRate this;
       Single.PipeSection.initialElevation := value;
       Single.PipeSection.finalElevation := Single.PipeSection.finalElevation this;
       Single.PipeSection.length := Single.PipeSection.length this;
       Single.PipeSection.diameter := Single.PipeSection.diameter this;
       Single.PipeSection.absoluteRoughness := Single.PipeSection.absoluteRoughness this;
       Single.PipeSection.kinematicViscosity := Single.PipeSection.kinematicViscosity this;
       Single.PipeSection.kValues := Single.PipeSection.kValues this |}).

Definition get_finalElevation : M Single.PipeSection.t (R) :=
  gets Single.PipeSection.finalElevation.

Definition set_finalElevation (value : R) : M Single.PipeSection.t unit :=
  modify (fun this =>
    {| Single.PipeSection.initialPressure := Single.PipeSection.initialPressure this;
       Single.PipeSection.finalPressure := Single.PipeSection.finalPressure this;
       Single.PipeSection.initialVelocity := Single.PipeSection.initialVelocity this;
       Single.PipeSection.finalVelocity := Single.PipeSection.finalVelocity this;
       Single.PipeSection.targetFlowRate := Single.PipeSection.targetFlowRate this;
       Single.PipeSection.initialElevation := Single.PipeSection.initialElevation this;
       Single.PipeSection.finalElevation := value;
       Single.PipeSection.length := Single.PipeSection.length this;
       Single.PipeSection.diameter := Single.PipeSection.diameter this;
       Single.PipeSection.absoluteRoughness := Single.PipeSection.absoluteRoughness this;
       Single.PipeSection.kinematicViscosity := Single.PipeSection.kinematicViscosity this;
       Single.PipeSection.kValues := Single.PipeSection.kValues this |}).

Definition get_length : M Single.PipeSection.t (R) :=
  gets Single.PipeSection.length.

Definition set_length (value : R) : M Single.PipeSection.t unit :=
  modify (fun this =>
    {| Single.PipeSection.initialPressure := Single.PipeSection.initialPressure this;
       Single.PipeSection.finalPressure := Single.PipeSection.finalPressure this;
       Single.PipeSection.initialVelocity := Single.PipeSection.initialVelocity this;
       Single.PipeSection.finalVelocity := Single.PipeSection.finalVelocity this;
       Single.PipeSection.targetFlowRate := Single.PipeSection.targetFlowRate this;
       Single.PipeSection.initialElevation := Single.PipeSection.initialElevation this;
       Single.PipeSection.finalElevation := Single.PipeSection.finalElevation this;
       Single.PipeSection.length := value;
       Single.PipeSection.diameter := Single.PipeSection.diameter this;
       Single.PipeSection.absoluteRoughness := Single.PipeSection.absoluteRoughness this;
       Single.PipeSection.kinematicViscosity := Single.PipeSection.kinematicViscosity this;
       Single.PipeSection.kValues := Single.PipeSection.kValues this |}).

Definition get_diameter : M Single.PipeSection.t (R) :=
  gets Single.PipeSection.diameter.

Definition set_diameter (value : R) : M Single.PipeSection.t unit :=
  modify (fun this =>
    {| Single.PipeSection.initialPressure := Single.PipeSection.initialPressure this;
       Single.PipeSection.finalPressure := Single.PipeSection.finalPressure this;
       Single.PipeSection.initialVelocity := Single.PipeSection.initialVelocity this;
       Single.PipeSection.finalVelocity := Single.PipeSection.finalVelocity this;
       Single.PipeSection.targetFlowRate := Single.PipeSection.targetFlowRate this;
       Single.PipeSection.initialElevation := Single.PipeSection.initialElevation this;
       Single.PipeSection.finalElevation := Single.PipeSection.finalElevation this;
       Single.PipeSection.length := Single.PipeSection.length this;
       Single.PipeSection.diameter := value;
       Single.PipeSection.absoluteRoughness := Single.PipeSection.absoluteRoughness this;
       Single.PipeSection.kinematicViscosity := Single.PipeSection.kinematicViscosity this;
       Single.PipeSection.kValues := Single.PipeSection.kValues this |}).

Definition get_absoluteRoughness : M Single.PipeSection.t (R) :=
  gets Single.PipeSection.absoluteRoughness.

Definition set_absoluteRoughness (value : R) : M Single.PipeSection.t unit :=
  modify (fun this =>
    {| Single.PipeSection.initialPressure := Single.PipeSection.initialPressure this;
       Single.PipeSection.finalPressure := Single.PipeSection.finalPressure this;
       Single.PipeSection.initialVelocity := Single.PipeSection.initialVelocity this;
       Single.PipeSection.finalVelocity := Single.PipeSection.finalVelocity this;
       Single.PipeSection.targetFlowRate := Single.PipeSection.targetFlowRate this;
       Single.PipeSection.initialElevation := Single.PipeSection.initialElevation this;
       Single.PipeSection.finalElevation := Single.PipeSection.finalElevation this;
       Single.PipeSection.length := Single.PipeSection.length this;
       Single.PipeSection.diameter := Single.PipeSection.diameter this;
       Single.PipeSection.absoluteRoughness := value;
       Single.PipeSection.kinematicViscosity := Single.PipeSection.kinematicViscosity this;
       Single.PipeSection.kValues := Single.PipeSection.kValues this |}).

Definition get_kinematicViscosity : M Single.PipeSection.t (R) :=
  gets Single.PipeSection.kinematicViscosity.

Definition set_kinematicViscosity (value : R) : M Single.PipeSection.t unit :=
  modify (fun this =>
    {| Single.PipeSection.initialPressure := Single.PipeSection.initialPressure this;
       Single.PipeSection.finalPressure := Single.PipeSection.finalPressure this;
       Single.PipeSection.initialVelocity := Single.PipeSection.initialVelocity this;
       Single.PipeSection.finalVelocity := Single.PipeSection.finalVelocity this;
       Single.PipeSection.targetFlowRate := Single.PipeSection.targetFlowRate this;
       Single.PipeSection.initialElevation := Single.PipeSection.initialElevation this;
       Single.PipeSection.finalElevation := Single.PipeSection.finalElevation this;
       Single.PipeSection.length := Single.PipeSection.length this;
       Single.PipeSection.diameter := Single.PipeSection.diameter this;
       Single.PipeSection.absoluteRoughness := Single.PipeSection.absoluteRoughness this;
       Single.PipeSection.kinematicViscosity := value;
       Single.PipeSection.kValues := Single.PipeSection.kValues this |}).

Definition get_kValues : M Single.PipeSection.t (list R) :=
  gets Single.PipeSection.kValues.

Definition set_kValues (value : list R) : M Single.PipeSection.t unit :=
  modify (fun this =>
    {| Single.PipeSection.initialPressure := Single.PipeSection.initialPressure this;
       Single.PipeSection.finalPressure := Single.PipeSection.finalPressure this;
       Single.PipeSection.initialVelocity := Single.PipeSection.initialVelocity this;
       Single.PipeSection.finalVelocity := Single.PipeSection.finalVelocity this;
       Single.PipeSection.targetFlowRate := Single.PipeSection.targetFlowRate this;
       Single.PipeSection.initialElevation := Single.PipeSection.initialElevation this;
       Single.PipeSection.finalElevation := Single.PipeSection.finalElevation this;
       Single.PipeSection.length := Single.PipeSection.length this;
       Single.PipeSection.diameter := Single.PipeSection.diameter this;
       Single.PipeSection.absoluteRoughness := Single.PipeSection.absoluteRoughness this;
       Single.PipeSection.kinematicViscosity := Single.PipeSection.kinematicViscosity this;
       Single.PipeSection.kValues := value |}).

End SingleAccessors.

(** The constructor arguments that repeat the fields of a section: what
    [new PipeSection(...)] would be given to build the section again. *)
Definition sameArguments (s : Single.PipeSection.t)
  : Single.PipeSection.ConstructorParameters :=
  {| Single.PipeSection.arg_initialPressure := Single.PipeSection.initialPressure s;
     Single.PipeSection.arg_finalPressure := Single.PipeSection.finalPressure s;
     Single.PipeSection.arg_initialVelocity := Single.PipeSection.initialVelocity s;
     Single.PipeSection.arg_finalVelocity := Single.PipeSection.finalVelocity s;
     Single.PipeSection.arg_targetFlowRate := Single.PipeSection.targetFlowRate s;
     Single.PipeSection.arg_initialElevation := Single.PipeSection.initialElevation s;
     Single.PipeSection.arg_finalElevation := Single.PipeSection.finalElevation s;
     Single.PipeSection.arg_length := Single.PipeSection.length s;
     Single.PipeSection.arg_diameter := Single.PipeSection.diameter s;
     Single.PipeSection.arg_absoluteRoughness := Single.PipeSection.absoluteRoughness s;
     Single.PipeSection.arg_kinematicViscosity := Single.PipeSection.kinematicViscosity s;
     Single.PipeSection.arg_kValues := Single.PipeSection.kValues s |}.


(** ** The vocabulary of the specification *)

(** The kinds of error of the specification.  The sources throw plain
    [Error]s that differ by message only; [kindOf] reads the kind off the
    message. *)
Inductive ErrorKind : Type :=
| ValidationError
| EmptyPipelineError
| IndexOutOfRangeError
| UnsupportedMethodError
| NoMethodError.

Definition validationMessages : list string :=
  [ "Pipe diameter must be greater than 0.";
    "Pipe length must be greater than 0.";
    "Absolute roughness must be non-negative.";
    "Kinematic viscosity must be greater than 0.";
    "Appurtenance K values must not be empty.";
    "Elevation ranges are invalid.";
    "Pipe diameter must be a positive integer";
    "Pipe length must be a positive integer";
    "Pipe absoluteRoughness must be a positive integer";
    "Pipe kinematicViscosity must be a positive integer" ]%string.

Definition kindOf (e : Exn) : option ErrorKind :=
  match e with
  | Error message =>
      if existsb (String.eqb message) validationMessages then
        Some ValidationError
      else if String.eqb message "No pipe sections exist." then
        Some EmptyPipelineError
      else if String.eqb message "Invalid pipe section index." then
        Some IndexOutOfRangeError
      else if String.eqb message "Colebook method not implemented." then
        Some UnsupportedMethodError
      else if String.eqb message "No approximation method defined." then
        Some NoMethodError
      else None
  | TypeError _ => None
  end.

(** A call raises an error of kind [k]. *)
Definition raises {A} (c : Completion A) (k : ErrorKind) : Prop :=
  exists e, c = Throw e /\ kindOf e = Some k.

(** A sequence of numbers is strictly increasing. *)
Definition strictlyIncreasing (l : list R) : Prop :=
  forall i j, (i < j < List.length l)%nat -> nth i l 0 < nth j l 0.

(** The flow-rate range of the canonical policy, in the words of the
    specification: twenty samples, strictly increasing,
    [flowRate[i] = (targetFlowRate/20) * (i+1)], the target last. *)
Definition canonicalFlowRange (targetFlowRate : R) (l : list R) : Prop :=
  List.length l = 20%nat
  /\ strictlyIncreasing l
  /\ (forall i, (i < 20)%nat ->
                nth i l 0 = (targetFlowRate / 20) * (INR i + 1))
  /\ last l 0 = targetFlowRate.

(** The Darcy-Weisbach head loss in the words of the specification. *)
Definition darcyWeisbach
  (f length diameter Q g : R) : R :=
  let hydraulicArea := PI * diameter ^ 2 / 4 in
  f * (length / diameter) * Q ^ 2 / (2 * g * hydraulicArea ^ 2).

(** The gravitational constant and the pressure conversion factor of a unit
    system. *)
Definition gravityOf (isImperial : bool) : R :=
  if isImperial then 32.17 else 9.81.

Definition unitFactorOf (isImperial : bool) : R :=
  if isImperial then 2.31 else 10.2.


(** ** Auxiliary definitions *)

(** The Reynolds number the banded section computes inline for a flow
    rate. *)
Definition bandedReynoldsNumber
  (s : Banded.PipeSection.t) (flowRate : R) : R :=
  Math_max
    ((flowRate / Banded.PipeSection.hydraulicArea s)
     * (Banded.PipeSection.diameter s
        / Banded.PipeSection.kinematicViscOfFluid s))
    1e-6.

(** A method leaves the object as it found it, however it completes. *)
Definition readOnly {S A} (m : M S A) : Prop := forall s, snd (m s) = s.

(** The sum of a list of numbers. *)
Definition Rsum (l : list R) : R := fold_right Rplus 0 l.

(** The tuple of index [i] that [execute] of a banded section returns. *)
Definition bandedRow {host : Host} (s : Banded.PipeSection.t) (i : nat)
  : R * R * R :=
  let flowRate := (Banded.PipeSection.targetFlowRate s / 20) * (INR i + 1) in
  (fst (Banded.PipeSection.calculateTDH s flowRate),
   snd (Banded.PipeSection.calculateTDH s flowRate),
   flowRate).

(** The tuple of index [i] of the curve of [System.calcTDH]: the heads are
    summed over the sections, the flow rate is the one of the section
    visited last. *)
Definition systemRow {host : Host} (sections : list Banded.PipeSection.t)
  (i : nat) : R * R * R :=
  (Rsum (map (fun s => fst (fst (bandedRow s i))) sections),
   Rsum (map (fun s => snd (fst (bandedRow s i))) sections),
   fold_left (fun _ s => snd (bandedRow s i)) sections 0).

(** A sequence of numbers never decreases. *)
Definition nonDecreasing (l : list R) : Prop :=
  forall i j, (i <= j < List.length l)%nat -> nth i l 0 <= nth j l 0.

(** The sample of index [i] of the range of a banded section. *)
Definition bandedFlowRate (s : Banded.PipeSection.t) (i : nat) : R :=
  (Banded.PipeSection.targetFlowRate s / 20) * (INR i + 1).

(** The losses of a banded section at a flow rate, for a given pressure
    head: major losses, minor losses, velocity head and pressure head, added
    in the order of the code. *)
Definition bandedLossesFor {host : Host}
  (s : Banded.PipeSection.t) (pressureHead flowRate : R) : R :=
  let adjustedFlowRate := Math_max flowRate 1e-6 in
  let velocityHead :=
    if Banded.PipeSection.hasVelocityHead s
    then Math_pow adjustedFlowRate 2
         / (2 * 32.17 * Math_pow (Banded.PipeSection.hydraulicArea s) 2)
    else 0 in
  Banded.PipeSection.calculateMajorLosses s adjustedFlowRate
  + Banded.PipeSection.calculateMinorLosses s adjustedFlowRate
  + velocityHead + pressureHead.

(** The pressure head of a banded section for a unit system, in the words
    of the specification. *)
Definition bandedPressureHead (s : Banded.PipeSection.t) (isImperial : bool)
  : R :=
  (Banded.PipeSection.p2 s - Banded.PipeSection.p1 s)
  * unitFactorOf isImperial.




(** The tuple of index [i] of the curve of [Pipeline.execute] over banded
    sections: the first heads of the sections are summed, the second
    element is the second head of the section visited last. *)
Definition laidOutRow {host : Host} (sections : list Banded.PipeSection.t)
  (i : nat) : R * R :=
  (Rsum (map (fun s => fst (fst (bandedRow s i))) sections),
   fold_left (fun _ s => snd (fst (bandedRow s i))) sections 0).

(** The same definitions on binary64 numbers. *)
Definition bandedRow64 {host : Binary64.Host}
  (s : Binary64.Banded.PipeSection.t) (i : nat) : float * float * float :=
  let flowRate :=
    (Binary64.Banded.PipeSection.targetFlowRate s / 20
     * (Binary64.of_index i + 1))%float in
  (fst (Binary64.Banded.PipeSection.calculateTDH s flowRate),
   snd (Binary64.Banded.PipeSection.calculateTDH s flowRate),
   flowRate).

(** The accumulation of one index in [System.calcTDH], from the given
    values of [cumulativeMinTDH], [cumulativeMaxTDH] and [flowRate]. *)
Definition accumulate64 {host : Binary64.Host} (i : nat)
  (sections : list Binary64.Banded.PipeSection.t)
  (locals : float * float * float) : float * float * float :=
  fold_left
    (fun (locals : float * float * float) s =>
       ((fst (fst locals) + snd (fst (bandedRow64 s i)))%float,
        (snd (fst locals) + fst (fst (bandedRow64 s i)))%float,
        snd (bandedRow64 s i)))
    sections locals.

Definition systemRow64 {host : Binary64.Host}
  (sections : list Binary64.Banded.PipeSection.t) (i : nat)
  : float * float * float :=
  let '(cumulativeMinTDH, cumulativeMaxTDH, flowRate) :=
    accumulate64 i sections (0, 0, 0)%float in
  (cumulativeMaxTDH, cumulativeMinTDH, flowRate).

(** The losses of a banded section at a flow rate on binary64 numbers. *)
Definition bandedLosses64 {host : Binary64.Host}
  (s : Binary64.Banded.PipeSection.t) (flowRate : float) : float :=
  let adjustedFlowRate := Binary64.Math_max flowRate 1e-6 in
  let pressureHead :=
    ((Binary64.Banded.PipeSection.p2 s - Binary64.Banded.PipeSection.p1 s)
     * 2.31)%float in
  let velocityHead :=
    if Binary64.Banded.PipeSection.hasVelocityHead s
    then (Binary64.Math_pow adjustedFlowRate 2
          / (2 * 32.17
             * Binary64.Math_pow
                 (Binary64.Banded.PipeSection.hydraulicArea s) 2))%float
    else 0%float in
  (Binary64.Banded.PipeSection.calculateMajorLosses s adjustedFlowRate
   + Binary64.Banded.PipeSection.calculateMinorLosses s adjustedFlowRate
   + velocityHead + pressureHead)%float.

(** The band of a tuple of [execute]: the first head less the second. *)
Definition bandWidth64 (row : float * float * float) : float :=
  (fst (fst row) - snd (fst row))%float.

(** ** Example data *)

(** The section of the example scenario of the specification, as arguments
    of the banded constructor: flat, no pressure or velocity difference. *)
Definition exampleParams (targetFlowRate : R)
  : Banded.PipeSection.ConstructorParameters :=
  {| Banded.PipeSection.arg_p1 := 0;
     Banded.PipeSection.arg_p2 := 0;
     Banded.PipeSection.arg_v1 := 0;
     Banded.PipeSection.arg_v2 := 0;
     Banded.PipeSection.arg_z1_min := 0;
     Banded.PipeSection.arg_z2_min := 0;
     Banded.PipeSection.arg_z1_max := 0;
     Banded.PipeSection.arg_z2_max := 0;
     Banded.PipeSection.arg_length := 100;
     Banded.PipeSection.arg_diameter := 0.5;
     Banded.PipeSection.arg_absoluteRoughness := 0.0002;
     Banded.PipeSection.arg_kinematicViscOfFluid := 1.1e-5;
     Banded.PipeSection.arg_targetFlowRate := targetFlowRate;
     Banded.PipeSection.arg_appurtenanceKValues := [0.5] |}.

(** The section the constructor builds from them. *)
Definition exampleSection (targetFlowRate : R) : Banded.PipeSection.t :=
  {| Banded.PipeSection.p1 := 0;
     Banded.PipeSection.p2 := 0;
     Banded.PipeSection.v1 := 0;
     Banded.PipeSection.v2 := 0;
     Banded.PipeSection.z1_min := 0;
     Banded.PipeSection.z2_min := 0;
     Banded.PipeSection.z1_max := 0;
     Banded.PipeSection.z2_max := 0;
     Banded.PipeSection.length := 100;
     Banded.PipeSection.diameter := 0.5;
     Banded.PipeSection.absoluteRoughness := 0.0002;
     Banded.PipeSection.kinematicViscOfFluid := 1.1e-5;
     Banded.PipeSection.targetFlowRate := targetFlowRate;
     Banded.PipeSection.appurtenanceKValues := [0.5];
     Banded.PipeSection.hydraulicArea := (math_pi * Math_pow 0.5 2) / 4;
     Banded.PipeSection.relativeRoughness := 0.0002 / 0.5;
     Banded.PipeSection.hasVelocityHead := false |}.

(** The scenario of the specification as a single-valued section. *)
Definition exampleSingleSection : Single.PipeSection.t :=
  {| Single.PipeSection.initialPressure := 0;
     Single.PipeSection.finalPressure := 0;
     Single.PipeSection.initialVelocity := 0;
     Single.PipeSection.finalVelocity := 0;
     Single.PipeSection.targetFlowRate := 10;
     Single.PipeSection.initialElevation := 0;
     Single.PipeSection.finalElevation := 0;
     Single.PipeSection.length := 100;
     Single.PipeSection.diameter := 0.5;
     Single.PipeSection.absoluteRoughness := 0.0002;
     Single.PipeSection.kinematicViscosity := 1.1e-5;
     Single.PipeSection.kValues := [0.5] |}.

(** A banded section with a real band, a pressure difference and a velocity
    difference. *)
Definition bandExampleParams : Banded.PipeSection.ConstructorParameters :=
  {| Banded.PipeSection.arg_p1 := 10;
     Banded.PipeSection.arg_p2 := 12;
     Banded.PipeSection.arg_v1 := 0;
     Banded.PipeSection.arg_v2 := 3;
     Banded.PipeSection.arg_z1_min := 0;
     Banded.PipeSection.arg_z2_min := 5;
     Banded.PipeSection.arg_z1_max := 2;
     Banded.PipeSection.arg_z2_max := 9;
     Banded.PipeSection.arg_length := 250;
     Banded.PipeSection.arg_diameter := 0.75;
     Banded.PipeSection.arg_absoluteRoughness := 0.0005;
     Banded.PipeSection.arg_kinematicViscOfFluid := 1.1e-5;
     Banded.PipeSection.arg_targetFlowRate := 10;
     Banded.PipeSection.arg_appurtenanceKValues := [0.5; 1.5] |}.

Definition bandExampleSection : Banded.PipeSection.t :=
  {| Banded.PipeSection.p1 := 10;
     Banded.PipeSection.p2 := 12;
     Banded.PipeSection.v1 := 0;
     Banded.PipeSection.v2 := 3;
     Banded.PipeSection.z1_min := 0;
     Banded.PipeSection.z2_min := 5;
     Banded.PipeSection.z1_max := 2;
     Banded.PipeSection.z2_max := 9;
     Banded.PipeSection.length := 250;
     Banded.PipeSection.diameter := 0.75;
     Banded.PipeSection.absoluteRoughness := 0.0005;
     Banded.PipeSection.kinematicViscOfFluid := 1.1e-5;
     Banded.PipeSection.targetFlowRate := 10;
     Banded.PipeSection.appurtenanceKValues := [0.5; 1.5];
     Banded.PipeSection.hydraulicArea := (math_pi * Math_pow 0.75 2) / 4;
     Banded.PipeSection.relativeRoughness := 0.0005 / 0.75;
     Banded.PipeSection.hasVelocityHead := true |}.


Definition exampleSingleParams : Single.PipeSection.ConstructorParameters :=
  {| Single.PipeSection.arg_initialPressure := 0;
     Single.PipeSection.arg_finalPressure := 0;
     Single.PipeSection.arg_initialVelocity := 0;
     Single.PipeSection.arg_finalVelocity := 0;
     Single.PipeSection.arg_targetFlowRate := 10;
     Single.PipeSection.arg_initialElevation := 0;
     Single.PipeSection.arg_finalElevation := 0;
     Single.PipeSection.arg_length := 100;
     Single.PipeSection.arg_diameter := 0.5;
     Single.PipeSection.arg_absoluteRoughness := 0.0002;
     Single.PipeSection.arg_kinematicViscosity := 1.1e-5;
     Single.PipeSection.arg_kValues := [0.5] |}.

Definition exampleSystem : Banded.System.t :=
  {| Banded.System.pipeSections := [exampleSection 10] |}.

Definition examplePipeline : Single.Pipeline.t :=
  {| Single.Pipeline.pipeSections := [exampleSingleSection] |}.


(** The example section raised by five: the same pipe, ending five higher. *)
Definition raisedSection (targetFlowRate : R) : Banded.PipeSection.t :=
  {| Banded.PipeSection.p1 := 0;
     Banded.PipeSection.p2 := 0;
     Banded.PipeSection.v1 := 0;
     Banded.PipeSection.v2 := 0;
     Banded.PipeSection.z1_min := 0;
     Banded.PipeSection.z2_min := 5;
     Banded.PipeSection.z1_max := 0;
     Banded.PipeSection.z2_max := 5;
     Banded.PipeSection.length := 100;
     Banded.PipeSection.diameter := 0.5;
     Banded.PipeSection.absoluteRoughness := 0.0002;
     Banded.PipeSection.kinematicViscOfFluid := 1.1e-5;
     Banded.PipeSection.targetFlowRate := targetFlowRate;
     Banded.PipeSection.appurtenanceKValues := [0.5];
     Banded.PipeSection.hydraulicArea := (math_pi * Math_pow 0.5 2) / 4;
     Banded.PipeSection.relativeRoughness := 0.0002 / 0.5;
     Banded.PipeSection.hasVelocityHead := false |}.

Definition raisedParams (targetFlowRate : R)
  : Banded.PipeSection.ConstructorParameters :=
  {| Banded.PipeSection.arg_p1 := 0;
     Banded.PipeSection.arg_p2 := 0;
     Banded.PipeSection.arg_v1 := 0;
     Banded.PipeSection.arg_v2 := 0;
     Banded.PipeSection.arg_z1_min := 0;
     Banded.PipeSection.arg_z2_min := 5;
     Banded.PipeSection.arg_z1_max := 0;
     Banded.PipeSection.arg_z2_max := 5;
     Banded.PipeSection.arg_length := 100;
     Banded.PipeSection.arg_diameter := 0.5;
     Banded.PipeSection.arg_absoluteRoughness := 0.0002;
     Banded.PipeSection.arg_kinematicViscOfFluid := 1.1e-5;
     Banded.PipeSection.arg_targetFlowRate := targetFlowRate;
     Banded.PipeSection.arg_appurtenanceKValues := [0.5] |}.


(** *** Example data on binary64 numbers *)

(** A host for the examples: squares are correctly rounded; the examples
    are laminar and reach neither another power nor the logarithm. *)
Definition exampleHost64 : Binary64.Host :=
  Binary64.squaringHost (fun _ _ => nan) (fun _ => nan).

(** The banded example section in a viscous fluid (kinematic viscosity 1),
    so that every sample is laminar. *)
Definition viscousBandSection64 : Binary64.Banded.PipeSection.t :=
  {| Binary64.Banded.PipeSection.p1 := 10;
     Binary64.Banded.PipeSection.p2 := 12;
     Binary64.Banded.PipeSection.v1 := 0;
     Binary64.Banded.PipeSection.v2 := 3;
     Binary64.Banded.PipeSection.z1_min := 0;
     Binary64.Banded.PipeSection.z2_min := 5;
     Binary64.Banded.PipeSection.z1_max := 2;
     Binary64.Banded.PipeSection.z2_max := 9;
     Binary64.Banded.PipeSection.length := 250;
     Binary64.Banded.PipeSection.diameter := 0.75;
     Binary64.Banded.PipeSection.absoluteRoughness := 0.0005;
     Binary64.Banded.PipeSection.kinematicViscOfFluid := 1;
     Binary64.Banded.PipeSection.targetFlowRate := 10;
     Binary64.Banded.PipeSection.appurtenanceKValues := [0.5; 1.5]%float;
     Binary64.Banded.PipeSection.hydraulicArea :=
       (Binary64.math_pi * (0.75 * 0.75) / 4)%float;
     Binary64.Banded.PipeSection.relativeRoughness := (0.0005 / 0.75)%float;
     Binary64.Banded.PipeSection.hasVelocityHead := true |}.

(** The flat example section in the same fluid, with the target flow rate
    and the K values given. *)
Definition viscousFlatSection64 (targetFlowRate : float)
  (kValues : list float) : Binary64.Banded.PipeSection.t :=
  {| Binary64.Banded.PipeSection.p1 := 0;
     Binary64.Banded.PipeSection.p2 := 0;
     Binary64.Banded.PipeSection.v1 := 0;
     Binary64.Banded.PipeSection.v2 := 0;
     Binary64.Banded.PipeSection.z1_min := 0;
     Binary64.Banded.PipeSection.z2_min := 0;
     Binary64.Banded.PipeSection.z1_max := 0;
     Binary64.Banded.PipeSection.z2_max := 0;
     Binary64.Banded.PipeSection.length := 100;
     Binary64.Banded.PipeSection.diameter := 0.5;
     Binary64.Banded.PipeSection.absoluteRoughness := 0.0002;
     Binary64.Banded.PipeSection.kinematicViscOfFluid := 1;
     Binary64.Banded.PipeSection.targetFlowRate := targetFlowRate;
     Binary64.Banded.PipeSection.appurtenanceKValues := kValues;
     Binary64.Banded.PipeSection.hydraulicArea :=
       (Binary64.math_pi * (0.5 * 0.5) / 4)%float;
     Binary64.Banded.PipeSection.relativeRoughness := (0.0002 / 0.5)%float;
     Binary64.Banded.PipeSection.hasVelocityHead := false |}.

(** A section of diameter [1e-200]: the square of the diameter underflows,
    and the cached area is 0. *)
Definition hairlineSection64 : Binary64.Banded.PipeSection.t :=
  {| Binary64.Banded.PipeSection.p1 := 0;
     Binary64.Banded.PipeSection.p2 := 0;
     Binary64.Banded.PipeSection.v1 := 0;
     Binary64.Banded.PipeSection.v2 := 0;
     Binary64.Banded.PipeSection.z1_min := 0;
     Binary64.Banded.PipeSection.z2_min := 0;
     Binary64.Banded.PipeSection.z1_max := 0;
     Binary64.Banded.PipeSection.z2_max := 0;
     Binary64.Banded.PipeSection.length := 100;
     Binary64.Banded.PipeSection.diameter := 1e-200;
     Binary64.Banded.PipeSection.absoluteRoughness := 0.0002;
     Binary64.Banded.PipeSection.kinematicViscOfFluid := 1;
     Binary64.Banded.PipeSection.targetFlowRate := 10;
     Binary64.Banded.PipeSection.appurtenanceKValues := [0.5]%float;
     Binary64.Banded.PipeSection.hydraulicArea := 0;
     Binary64.Banded.PipeSection.relativeRoughness := (0.0002 / 1e-200)%float;
     Binary64.Banded.PipeSection.hasVelocityHead := false |}.

(** A single-valued section of diameter 0. *)
Definition zeroDiameterSection64 : Binary64.Single.PipeSection.t :=
  {| Binary64.Single.PipeSection.initialPressure := 0;
     Binary64.Single.PipeSection.finalPressure := 0;
     Binary64.Single.PipeSection.initialVelocity := 0;
     Binary64.Single.PipeSection.finalVelocity := 0;
     Binary64.Single.PipeSection.targetFlowRate := 10;
     Binary64.Single.PipeSection.initialElevation := 0;
     Binary64.Single.PipeSection.finalElevation := 0;
     Binary64.Single.PipeSection.length := 100;
     Binary64.Single.PipeSection.diameter := 0;
     Binary64.Single.PipeSection.absoluteRoughness := 0.0002;
     Binary64.Single.PipeSection.kinematicViscosity := 1.1e-5;
     Binary64.Single.PipeSection.kValues := [0.5]%float |}.


(** ** Facts about the host language *)

Lemma lt_true (a b : R) : a < b -> lt a b = true.
Proof. intro H. unfold lt. destruct (Rlt_dec a b); [reflexivity | contradiction]. Qed.

Lemma lt_false (a b : R) : b <= a -> lt a b = false.
Proof. intro H. unfold lt. destruct (Rlt_dec a b); [lra | reflexivity]. Qed.

Lemma le_true (a b : R) : a <= b -> le a b = true.
Proof. intro H. unfold le. destruct (Rle_dec a b); [reflexivity | contradiction]. Qed.

Lemma le_false (a b : R) : b < a -> le a b = false.
Proof. intro H. unfold le. destruct (Rle_dec a b); [lra | reflexivity]. Qed.

Lemma strict_ne_true (a b : R) : a <> b -> strict_ne a b = true.
Proof.
  intro H. unfold strict_ne, strict_eq.
  destruct (Req_dec_T a b); [contradiction | reflexivity].
Qed.

Lemma strict_ne_false (a : R) : strict_ne a a = false.
Proof.
  unfold strict_ne, strict_eq.
  destruct (Req_dec_T a a); [reflexivity | congruence].
Qed.

Lemma Math_pow_2 (x : R) : Math_pow x 2 = x ^ 2.
Proof. unfold Math_pow. simpl. ring. Qed.

Lemma Array_from_length {A} (n : nat) (f : nat -> A) :
  List.length (Array_from n f) = n.
Proof. unfold Array_from. now rewrite length_map, length_seq. Qed.

Lemma Array_from_nth {A} (n : nat) (f : nat -> A) (i : nat) (d : A) :
  (i < n)%nat -> nth i (Array_from n f) d = f i.
Proof.
  intro Hi. unfold Array_from.
  rewrite (nth_indep _ d (f 0%nat)) by now rewrite length_map, length_seq.
  rewrite map_nth, seq_nth by assumption. reflexivity.
Qed.

Lemma Array_from_nth_error {A} (n : nat) (f : nat -> A) (i : nat) :
  (i < n)%nat -> nth_error (Array_from n f) i = Some (f i).
Proof.
  intro Hi. unfold Array_from.
  rewrite nth_error_map, nth_error_seq.
  destruct (Nat.ltb_spec i n) as [_ | Hge]; [reflexivity | lia].
Qed.

Lemma last_as_nth {A} (l : list A) (d : A) :
  last l d = nth (List.length l - 1) l d.
Proof.
  induction l as [| x [| y tl] IH]; try reflexivity.
  change (last (x :: y :: tl) d) with (last (y :: tl) d).
  rewrite IH. simpl. now rewrite Nat.sub_0_r.
Qed.

(** Folding [sum + k] from any start adds the start to the sum. *)
Lemma fold_sum_from (xs : list R) (acc : R) :
  fold_left (fun sum k => sum + k) xs acc = acc + reduce_sum xs.
Proof.
  unfold reduce_sum. revert acc.
  induction xs as [| x tl IH]; intro acc; simpl.
  - ring.
  - rewrite IH, (IH (0 + x)). ring.
Qed.

(** ** The friction factor *)

Lemma banded_friction_laminar
  (host : Host) (s : Banded.PipeSection.t) (flowRate : R) :
  bandedReynoldsNumber s flowRate < 2300 ->
  Banded.PipeSection.calculateFrictionFactor s flowRate
  = 64 / bandedReynoldsNumber s flowRate.
Proof.
  intro Hre. unfold Banded.PipeSection.calculateFrictionFactor.
  fold (bandedReynoldsNumber s flowRate).
  cbv zeta. now rewrite (lt_true _ _ Hre).
Qed.

(** C3.  Below a Reynolds number of 2300 the friction factor is [64 / Re],
    for the strategy class and for the method of the banded section alike.
    The equation holds whatever the host's logarithm is, so the turbulent
    estimate plays no part in the result. *)
Theorem laminar_friction_factor
  (host : Host) (relativeRoughness reynoldsNumber : R) :
  0 < relativeRoughness ->
  0 < reynoldsNumber < 2300 ->
  Single.SerghidesApproximation.calculateFrictionFactor
    relativeRoughness reynoldsNumber
  = 64 / reynoldsNumber
  /\ forall (s : Banded.PipeSection.t) (flowRate : R),
       Banded.PipeSection.relativeRoughness s = relativeRoughness ->
       bandedReynoldsNumber s flowRate = reynoldsNumber ->
       Banded.PipeSection.calculateFrictionFactor s flowRate
       = 64 / reynoldsNumber.
Proof.
  intros _ [_ Hre]. split.
  - unfold Single.SerghidesApproximation.calculateFrictionFactor.
    now rewrite (lt_true _ _ Hre).
  - intros s flowRate _ Heq. subst reynoldsNumber.
    now apply banded_friction_laminar.
Qed.

(** ** The flow-rate range *)

Lemma banded_flow_range_nth (s : Banded.PipeSection.t) (i : nat) :
  (i < 20)%nat ->
  nth i (Banded.PipeSection.generateFlowRange s) 0
  = (Banded.PipeSection.targetFlowRate s / 20) * (INR i + 1).
Proof.
  intro Hi. unfold Banded.PipeSection.generateFlowRange.
  now rewrite Array_from_nth.
Qed.

Lemma pipeline_flow_range_nth (targetFlowRate : R) (i : nat) :
  (i < 20)%nat ->
  nth i (Single.Pipeline.generateFlowRange targetFlowRate) 0
  = (targetFlowRate / 10) * INR i.
Proof.
  intro Hi. unfold Single.Pipeline.generateFlowRange.
  now rewrite Array_from_nth.
Qed.

(** C2 fails on [Pipeline.generateFlowRange]: for a target of 10 the first
    sample is 0 and the last one is 19. *)
Lemma pipeline_flow_range_not_canonical :
  nth 0 (Single.Pipeline.generateFlowRange 10) 0 = 0
  /\ last (Single.Pipeline.generateFlowRange 10) 0 = 19
  /\ ~ canonicalFlowRange 10 (Single.Pipeline.generateFlowRange 10).
Proof.
  assert (Hlast : last (Single.Pipeline.generateFlowRange 10) 0 = 19).
  { rewrite last_as_nth.
    unfold Single.Pipeline.generateFlowRange at 1.
    rewrite Array_from_length, pipeline_flow_range_nth by lia.
    simpl. lra. }
  refine (conj _ (conj _ _)).
  - rewrite pipeline_flow_range_nth by lia. simpl. lra.
  - exact Hlast.
  - intros (_ & _ & _ & Hl). rewrite Hlast in Hl. lra.
Qed.

(** ** Methods that only read the object *)

Lemma readOnly_ret {S A} (a : A) : readOnly (S := S) (ret a).
Proof. intro s. reflexivity. Qed.

Lemma readOnly_throw {S A} (e : Exn) : readOnly (S := S) (A := A) (throw e).
Proof. intro s. reflexivity. Qed.

Lemma readOnly_gets {S A} (f : S -> A) : readOnly (gets f).
Proof. intro s. reflexivity. Qed.

Lemma readOnly_lift {S A} (c : Completion A) : readOnly (S := S) (lift c).
Proof. intro s. reflexivity. Qed.

Lemma readOnly_destructure_at {S A} (rows : list A) (i : nat) :
  readOnly (S := S) (destructure_at rows i).
Proof.
  unfold destructure_at. destruct (nth_error rows i).
  - apply readOnly_ret.
  - apply readOnly_throw.
Qed.

Lemma readOnly_receiver_at {S A} (xs : list A) (i : nat) :
  readOnly (S := S) (receiver_at xs i).
Proof.
  unfold receiver_at. destruct (nth_error xs i).
  - apply readOnly_ret.
  - apply readOnly_throw.
Qed.

Lemma readOnly_bind {S A B} (m : M S A) (k : A -> M S B) :
  readOnly m -> (forall a, readOnly (k a)) -> readOnly (bind m k).
Proof.
  intros Hm Hk s. unfold bind. specialize (Hm s).
  destruct (m s) as [[a | e] s']; simpl in Hm; subst s'.
  - apply Hk.
  - reflexivity.
Qed.

Lemma readOnly_for_of {S A B} (xs : list A) (body : B -> A -> M S B) :
  (forall acc x, readOnly (body acc x)) ->
  forall acc, readOnly (for_of xs body acc).
Proof.
  intro Hbody. induction xs as [| x tl IH]; intro acc; simpl.
  - apply readOnly_ret.
  - apply readOnly_bind; [apply Hbody | exact IH].
Qed.

Lemma readOnly_for_range {S B} (n : nat) (body : B -> nat -> M S B) :
  (forall acc i, readOnly (body acc i)) ->
  forall acc, readOnly (for_range n body acc).
Proof. intros Hbody acc. now apply readOnly_for_of. Qed.

Create HintDb readonly.
#[local] Hint Resolve readOnly_ret readOnly_throw readOnly_gets readOnly_lift
  readOnly_destructure_at readOnly_receiver_at : readonly.

(** One step of a read-only argument: peel a sequencing, a loop or a
    branch, and close the leaves. *)
Ltac readonly_step :=
  match goal with
  | |- readOnly (bind _ _) => apply readOnly_bind; [| intro]
  | |- readOnly (for_range _ _ _) => apply readOnly_for_range; intros
  | |- readOnly (for_of _ _ _) => apply readOnly_for_of; intros
  | |- readOnly (if ?c then _ else _) => destruct c
  | |- readOnly (match ?x with _ => _ end) => destruct x
  | |- readOnly _ => solve [auto with readonly]
  end.




(** ** Managing the sections *)

Lemma out_of_range_guard (index : Z) (n : nat) :
  (index < 0 \/ index >= Z.of_nat n)%Z ->
  (index <? 0)%Z || (index >=? Z.of_nat n)%Z = true.
Proof.
  intros [Hneg | Hbig]; apply orb_true_iff.
  - left. now apply Z.ltb_lt.
  - right. apply Z.geb_le. lia.
Qed.

(** C10.  With an index below zero or not below the number of sections,
    [removePipeSection] and [modifyPipeSection] throw the index error and
    the section list stays as it was; so for [System] and for [Pipeline]. *)
Theorem invalid_index_rejected (index : Z) :
  (forall (system : Banded.System.t)
          (newParams : Banded.PipeSection.ConstructorParameters),
      (index < 0
       \/ index >= Z.of_nat (List.length (Banded.System.pipeSections system)))%Z ->
      Banded.System.removePipeSection index system
      = (Throw (Error "Invalid pipe section index."), system)
      /\ Banded.System.modifyPipeSection index newParams system
         = (Throw (Error "Invalid pipe section index."), system))
  /\ (forall (pipeline : Single.Pipeline.t)
             (newParams : Single.PipeSection.ConstructorParameters),
        (index < 0
         \/ index
            >= Z.of_nat (List.length (Single.Pipeline.pipeSections pipeline)))%Z ->
        Single.Pipeline.removePipeSection index pipeline
        = (Throw (Error "Invalid pipe section index."), pipeline)
        /\ Single.Pipeline.modifyPipeSection index newParams pipeline
           = (Throw (Error "Invalid pipe section index."), pipeline))
  /\ kindOf (Error "Invalid pipe section index.") = Some IndexOutOfRangeError.
Proof.
  refine (conj _ (conj _ _)).
  - intros system newParams Hidx.
    unfold Banded.System.removePipeSection, Banded.System.modifyPipeSection,
      bind, gets.
    rewrite (out_of_range_guard _ _ Hidx). split; reflexivity.
  - intros pipeline newParams Hidx.
    unfold Single.Pipeline.removePipeSection,
      Single.Pipeline.modifyPipeSection, bind, gets.
    rewrite (out_of_range_guard _ _ Hidx). split; reflexivity.
  - reflexivity.
Qed.

(** ** Resolving the approximation method *)

(** C6, as the sources have it.  On a pipeline with at least one section
    the Colebrook method is refused with the unsupported-method error; on an
    empty pipeline the check for sections comes first and its error is the
    one thrown.  Either way no curve is returned and the pipeline is left as
    it was.  The [execute] of the single-valued section refuses the method
    whatever the section. *)
Theorem colebrook_is_refused (host : Host) :
  (forall (pipeline : Single.Pipeline.t) (targetFlowRate : R)
          (isImperial : bool),
      Single.Pipeline.pipeSections pipeline <> [] ->
      Single.Pipeline.execute targetFlowRate (Some Single.COLEBROOK)
        isImperial pipeline
      = (Throw (Error "Colebook method not implemented."), pipeline))
  /\ (forall (pipeline : Single.Pipeline.t) (targetFlowRate : R)
             (isImperial : bool),
        Single.Pipeline.pipeSections pipeline = [] ->
        Single.Pipeline.execute targetFlowRate (Some Single.COLEBROOK)
          isImperial pipeline
        = (Throw (Error "No pipe sections exist."), pipeline))
  /\ (forall (pipeline : Single.Pipeline.t) (targetFlowRate : R)
             (isImperial : bool),
        returns
          (fst (Single.Pipeline.execute targetFlowRate
                  (Some Single.COLEBROOK) isImperial pipeline))
        = false)
  /\ (forall (Bernoullis_execute :
                Single.Bernoullis.t -> bool -> Completion (list (R * R)))
             (section : Single.PipeSection.t) (isImperial : option bool),
        Single.PipeSectionMethods.execute Bernoullis_execute section
          (Some Single.COLEBROOK) isImperial
        = Throw (Error "Colebook method not implemented."))
  /\ kindOf (Error "Colebook method not implemented.")
     = Some UnsupportedMethodError
  /\ kindOf (Error "No pipe sections exist.") = Some EmptyPipelineError.
Proof.
  assert (Hfull : forall pipeline targetFlowRate isImperial,
             Single.Pipeline.pipeSections pipeline <> [] ->
             Single.Pipeline.execute targetFlowRate (Some Single.COLEBROOK)
               isImperial pipeline
             = (Throw (Error "Colebook method not implemented."), pipeline)).
  { intros [sections] targetFlowRate isImperial Hne. simpl in Hne.
    destruct sections as [| s tl]; [congruence | reflexivity]. }
  assert (Hempty : forall pipeline targetFlowRate isImperial,
             Single.Pipeline.pipeSections pipeline = [] ->
             Single.Pipeline.execute targetFlowRate (Some Single.COLEBROOK)
               isImperial pipeline
             = (Throw (Error "No pipe sections exist."), pipeline)).
  { intros [sections] targetFlowRate isImperial He. simpl in He.
    subst sections. reflexivity. }
  refine (conj Hfull (conj Hempty (conj _ (conj _ (conj _ _))))).
  - intros pipeline targetFlowRate isImperial.
    destruct (Single.Pipeline.pipeSections pipeline) as [| s tl] eqn:Hs.
    + now rewrite Hempty.
    + rewrite Hfull; [reflexivity | congruence].
  - reflexivity.
  - reflexivity.
  - reflexivity.
Qed.

(** C6 fails as stated on the empty pipeline: the error thrown there is the
    one for a pipeline without sections. *)
Lemma colebrook_on_empty_pipeline :
  fst (Single.Pipeline.execute (host := idealHost) 10
         (Some Single.COLEBROOK) true (Single.Pipeline.constructor None))
  = Throw (Error "No pipe sections exist.")
  /\ ~ raises
       (fst (Single.Pipeline.execute (host := idealHost) 10
               (Some Single.COLEBROOK) true
               (Single.Pipeline.constructor None)))
       UnsupportedMethodError.
Proof.
  split; [reflexivity |].
  intros (e & He & Hk). change (Throw (Error "No pipe sections exist.") = Throw e
                                :> Completion (list (R * R))) in He.
  injection He as <-. discriminate Hk.
Qed.

(** ** The system curve as a sum over the sections *)

Lemma assign_app {A} (pre post : list A) (x v : A) :
  assign (pre ++ x :: post) (List.length pre) v = pre ++ v :: post.
Proof. induction pre as [| y pre IH]; simpl; [reflexivity | now rewrite IH]. Qed.

(** Filling the slots [k .. k+m-1] of an array one by one. *)
Lemma fold_assign {A} (g : nat -> A) (m : nat) :
  forall (pre mid post : list A),
    List.length mid = m ->
    fold_left (fun acc i => assign acc i (g i)) (seq (List.length pre) m)
      (pre ++ mid ++ post)
    = pre ++ map g (seq (List.length pre) m) ++ post.
Proof.
  induction m as [| m IH]; intros pre mid post Hlen.
  - destruct mid; [reflexivity | discriminate].
  - destruct mid as [| x mid]; [discriminate |].
    injection Hlen as Hlen. simpl.
    rewrite assign_app.
    replace (pre ++ g (List.length pre) :: mid ++ post)
      with ((pre ++ [g (List.length pre)]) ++ mid ++ post)
      by now rewrite <- app_assoc.
    replace (S (List.length pre))
      with (List.length (pre ++ [g (List.length pre)]))
      by (rewrite length_app; simpl; lia).
    rewrite IH by assumption. now rewrite <- app_assoc.
Qed.

Lemma fill_all {A} (g : nat -> A) (n : nat) (d : A) :
  fold_left (fun acc i => assign acc i (g i)) (seq 0 n) (Array_fill n d)
  = map g (seq 0 n).
Proof.
  pose proof (fold_assign g n [] (Array_fill n d) []) as H.
  simpl in H. rewrite !app_nil_r in H. apply H.
  unfold Array_fill. apply repeat_length.
Qed.

(** A loop whose body completes normally and leaves the object alone is a
    fold. *)
Lemma for_of_pure {S A B} (s : S) (xs : list A)
  (body : B -> A -> M S B) (f : B -> A -> B) :
  (forall acc x, In x xs -> body acc x s = (Normal (f acc x), s)) ->
  forall acc, for_of xs body acc s = (Normal (fold_left f xs acc), s).
Proof.
  induction xs as [| x tl IH]; intros Hbody acc; simpl.
  - reflexivity.
  - unfold bind. rewrite Hbody by now left.
    apply IH. intros acc' y Hy. apply Hbody. now right.
Qed.

Lemma banded_execute_nth_error (host : Host) (s : Banded.PipeSection.t) (i : nat) :
  (i < 20)%nat ->
  nth_error (Banded.PipeSection.execute s) i = Some (bandedRow s i).
Proof.
  intro Hi. unfold Banded.PipeSection.execute, Banded.PipeSection.generateFlowRange.
  rewrite nth_error_map, Array_from_nth_error by assumption.
  cbn [option_map]. unfold bandedRow. cbv zeta.
  destruct (Banded.PipeSection.calculateTDH s _) as [maxTDH minTDH].
  reflexivity.
Qed.

Lemma banded_execute_length (host : Host) (s : Banded.PipeSection.t) :
  List.length (Banded.PipeSection.execute s) = 20%nat.
Proof.
  unfold Banded.PipeSection.execute, Banded.PipeSection.generateFlowRange.
  now rewrite length_map, Array_from_length.
Qed.

Lemma system_inner_fold (host : Host) (i : nat) (sections : list Banded.PipeSection.t) :
  forall a b c,
    fold_left
      (fun (locals : R * R * R) s =>
         (fst (fst locals) + snd (fst (bandedRow s i)),
          snd (fst locals) + fst (fst (bandedRow s i)),
          snd (bandedRow s i)))
      sections (a, b, c)
    = (a + Rsum (map (fun s => snd (fst (bandedRow s i))) sections),
       b + Rsum (map (fun s => fst (fst (bandedRow s i))) sections),
       fold_left (fun _ s => snd (bandedRow s i)) sections c).
Proof.
  induction sections as [| s tl IH]; intros a b c; simpl.
  - now rewrite !Rplus_0_r.
  - rewrite IH. simpl. now rewrite !Rplus_assoc.
Qed.

Lemma calcTDH_value (host : Host) (sections : list Banded.PipeSection.t) :
  sections <> [] ->
  Banded.System.calcTDH {| Banded.System.pipeSections := sections |}
  = (Normal (map (systemRow sections) (seq 0 20)),
     {| Banded.System.pipeSections := sections |}).
Proof.
  intro Hne. destruct sections as [| s0 tl]; [congruence |].
  set (sections := s0 :: tl).
  unfold Banded.System.calcTDH.
  unfold bind at 1, gets at 1. cbn [Banded.System.pipeSections].
  change (Nat.eqb (List.length sections) 0) with false. cbv iota.
  unfold bind at 1. unfold receiver_at at 1. cbn [nth_error sections ret].
  rewrite banded_execute_length.
  unfold for_range.
  rewrite (for_of_pure _ _ _ (fun acc i => assign acc i (systemRow sections i))).
  - now rewrite fill_all.
  - intros acc i Hi. apply in_seq in Hi.
    unfold bind at 1, gets at 1. cbn [Banded.System.pipeSections].
    unfold bind at 1.
    rewrite (for_of_pure _ _ _
               (fun (locals : R * R * R) s =>
                  (fst (fst locals) + snd (fst (bandedRow s i)),
                   snd (fst locals) + fst (fst (bandedRow s i)),
                   snd (bandedRow s i)))).
    + rewrite system_inner_fold. unfold ret, systemRow.
      rewrite !Rplus_0_l. reflexivity.
    + intros [[mn mx] fr] s _. unfold bind, destructure_at.
      rewrite banded_execute_nth_error by lia.
      unfold ret. simpl. reflexivity.
Qed.

Lemma exampleSection_constructed (targetFlowRate : R) :
  Banded.PipeSection.new (exampleParams targetFlowRate)
  = Normal (exampleSection targetFlowRate).
Proof.
  unfold Banded.PipeSection.new, Banded.PipeSection.constructor,
    exampleParams, exampleSection. simpl.
  rewrite !le_false, !lt_false by lra. simpl.
  now rewrite strict_ne_false.
Qed.

(** ** Reordering the sections *)


(** ** The major losses *)

(** Decimal literals as quotients of integers, for [field]. *)
Ltac decimals :=
  unfold Q2R; cbn [QArith_base.Qnum QArith_base.Qden];
  repeat match goal with
         | |- context [IZR (Z.pow_pos ?b ?e)] =>
             let v := eval vm_compute in (Z.pow_pos b e) in
             change (Z.pow_pos b e) with v
         end.

Lemma PI_bounds : 3 < PI <= 4.
Proof. pose proof PI2_3_2. pose proof PI_4. lra. Qed.

(** What [Bernoullis.calculateMajorLosses] computes: the area under the
    fraction is not squared. *)
Lemma bernoullis_major_losses_formula
  (b : Single.Bernoullis.t) (isImperial : bool)
  (flowRate relativeRoughness : R) :
  let s := Single.Bernoullis._pipeSection b in
  let f :=
    Single.calculateFrictionFactor (Single.Bernoullis._approximationMethod b)
      relativeRoughness
      (Single.Bernoullis.calculateReynoldsNumber b flowRate) in
  Single.Bernoullis.calculateMajorLosses b isImperial flowRate
    relativeRoughness
  = f * (Single.PipeSection.length s / Single.PipeSection.diameter s)
    * flowRate ^ 2
    / (2 * gravityOf isImperial
       * (PI * Single.PipeSection.diameter s ^ 2 / 4)).
Proof.
  cbv zeta. unfold Single.Bernoullis.calculateMajorLosses, gravityOf, math_pi.
  rewrite !Math_pow_2. destruct isImperial; simpl negb; cbv iota.
  - f_equal. unfold Rdiv. ring.
  - f_equal. unfold Rdiv. ring.
Qed.

(** What the banded [calculateMajorLosses] computes: the Darcy-Weisbach loss
    with the imperial constant, over the square of the cached area. *)
Lemma banded_major_losses_formula
  (host : Host) (s : Banded.PipeSection.t) (flowRate : R) :
  Banded.PipeSection.hydraulicArea s
  = PI * Banded.PipeSection.diameter s ^ 2 / 4 ->
  Banded.PipeSection.calculateMajorLosses s flowRate
  = darcyWeisbach (Banded.PipeSection.calculateFrictionFactor s flowRate)
      (Banded.PipeSection.length s) (Banded.PipeSection.diameter s)
      flowRate (gravityOf true).
Proof.
  intro Harea.
  unfold Banded.PipeSection.calculateMajorLosses, darcyWeisbach, gravityOf.
  cbv zeta. rewrite !Math_pow_2, Harea. reflexivity.
Qed.

Lemma example_reynolds_number :
  Single.Bernoullis.calculateReynoldsNumber
    {| Single.Bernoullis._approximationMethod :=
         Single.SerghidesApproximation.new (host := idealHost);
       Single.Bernoullis._pipeSection := exampleSingleSection |}
    0.001
  = 8000 / 11 / PI.
Proof.
  pose proof PI_bounds as [Hlo Hhi].
  unfold Single.Bernoullis.calculateReynoldsNumber. cbv zeta.
  cbn [Single.Bernoullis._pipeSection exampleSingleSection
         Single.PipeSection.diameter Single.PipeSection.kinematicViscosity].
  rewrite Math_pow_2. unfold math_pi, Math_max.
  replace (0.001 / (PI * 0.5 ^ 2 / 4) * 0.5 / 1.1e-5) with (8000 / 11 / PI)
    by (decimals; field; lra).
  apply Rmax_left.
  apply Rle_trans with (8000 / 11 / 4); [lra |].
  unfold Rdiv. apply Rmult_le_compat_l; [lra |].
  apply Rinv_le_contravar; lra.
Qed.

(** C1 at the failing input.  For the example section at a flow rate of
    0.001 (laminar, so that the friction factor is [64 / Re] on every host),
    [Bernoullis.calculateMajorLosses] returns the friction term over
    [2 g A], which is [PI / 16] times the Darcy-Weisbach loss over
    [2 g A^2] that the specification states. *)
Theorem bernoullis_major_losses_not_darcy_weisbach (host : Host) :
  let b :=
    {| Single.Bernoullis._approximationMethod :=
         Single.SerghidesApproximation.new;
       Single.Bernoullis._pipeSection := exampleSingleSection |} in
  let relativeRoughness := 0.0002 / 0.5 in
  let reynoldsNumber := Single.Bernoullis.calculateReynoldsNumber b 0.001 in
  let f :=
    Single.SerghidesApproximation.calculateFrictionFactor relativeRoughness
      reynoldsNumber in
  reynoldsNumber = 8000 / 11 / PI
  /\ f = 64 / reynoldsNumber
  /\ Single.Bernoullis.calculateMajorLosses b true 0.001 relativeRoughness
     = PI / 16 * darcyWeisbach f 100 0.5 0.001 32.17
  /\ Single.Bernoullis.calculateMajorLosses b true 0.001 relativeRoughness
     <> darcyWeisbach f 100 0.5 0.001 32.17.
Proof.
  intros b relativeRoughness reynoldsNumber f.
  pose proof PI_bounds as [Hlo Hhi].
  assert (Hre : reynoldsNumber = 8000 / 11 / PI) by exact example_reynolds_number.
  assert (Hlam : reynoldsNumber < 2300).
  { rewrite Hre. apply Rlt_trans with (8000 / 11 / 3); [| lra].
    unfold Rdiv. apply Rmult_lt_compat_l; [lra |].
    apply Rinv_lt_contravar; lra. }
  assert (Hf : f = 64 / reynoldsNumber).
  { unfold f, Single.SerghidesApproximation.calculateFrictionFactor.
    now rewrite (lt_true _ _ Hlam). }
  assert (Hfv : f = 0.088 * PI).
  { rewrite Hf, Hre. decimals. field. lra. }
  assert (Hdw : darcyWeisbach f 100 0.5 0.001 32.17
                = 0.088 * 200 * 0.001 ^ 2 * 256 / (2 * 32.17 * PI)).
  { unfold darcyWeisbach. rewrite Hfv. decimals. field. lra. }
  assert (Hcode : Single.Bernoullis.calculateMajorLosses b true 0.001
                    relativeRoughness
                  = 0.088 * 200 * 0.001 ^ 2 * 16 / (2 * 32.17)).
  { rewrite bernoullis_major_losses_formula. cbv zeta.
    change (Single.calculateFrictionFactor
              (Single.Bernoullis._approximationMethod b) relativeRoughness
              (Single.Bernoullis.calculateReynoldsNumber b 0.001)) with f.
    rewrite Hfv.
    cbn [b Single.Bernoullis._pipeSection exampleSingleSection
           Single.PipeSection.length Single.PipeSection.diameter].
    unfold gravityOf. decimals. field. lra. }
  refine (conj Hre (conj Hf (conj _ _))).
  - rewrite Hcode, Hdw. decimals. field. lra.
  - rewrite Hcode, Hdw.
    set (K := 0.088 * 200 * 0.001 ^ 2 * 16 / (2 * 32.17)).
    assert (HK : 0 < K) by (unfold K; lra).
    replace (0.088 * 200 * 0.001 ^ 2 * 256 / (2 * 32.17 * PI))
      with (K * 16 / PI) by (unfold K; decimals; field; lra).
    intro Heq.
    assert (Hmul : K * PI = K * 16).
    { rewrite Heq at 1. field. lra. }
    apply Rmult_eq_reg_l in Hmul; lra.
Qed.

(** ** Validation at construction *)

(** The banded constructor rejects a zero diameter, a zero length, an empty
    list of K values and a crossing elevation band, each with a validation
    error. *)
Lemma banded_constructor_validates
  (a : Banded.PipeSection.ConstructorParameters) :
  Banded.PipeSection.arg_diameter a = 0
  \/ Banded.PipeSection.arg_length a = 0
  \/ Banded.PipeSection.arg_appurtenanceKValues a = []
  \/ Banded.PipeSection.arg_z2_max a < Banded.PipeSection.arg_z1_min a
  \/ Banded.PipeSection.arg_z2_min a < Banded.PipeSection.arg_z1_max a ->
  raises (Banded.PipeSection.new a) ValidationError.
Proof.
  intro Hbad.
  unfold Banded.PipeSection.new, Banded.PipeSection.constructor, raises.
  repeat match goal with
         | |- context [if ?c then Throw ?e else _] =>
             destruct c eqn:?; [exists e; split; reflexivity |]
         end.
  exfalso.
  repeat match goal with
         | H : le _ _ = false |- _ =>
             unfold le in H; destruct (Rle_dec _ _); [discriminate H | clear H]
         | H : lt _ _ = false |- _ =>
             unfold lt in H; destruct (Rlt_dec _ _); [discriminate H | clear H]
         | H : _ || _ = false |- _ => apply orb_false_iff in H; destruct H
         end.
  destruct Hbad as [Hd | [Hl | [Hk | [Hz | Hz]]]]; try lra.
  rewrite Hk in *. discriminate.
Qed.

(** C5 at the failing inputs.  The single-valued constructor tests the
    diameter with [<] where it tests the length with [<=], and it does not
    look at the K values: a section of diameter 0 and a section without K
    values are both constructed. *)
Theorem single_constructor_accepts_invalid_sections :
  Single.PipeSection.constructor 0 0 0 0 10 0 0 100 0 0.0002 1.1e-5 [0.5]
  = Normal
      {| Single.PipeSection.initialPressure := 0;
         Single.PipeSection.finalPressure := 0;
         Single.PipeSection.initialVelocity := 0;
         Single.PipeSection.finalVelocity := 0;
         Single.PipeSection.targetFlowRate := 10;
         Single.PipeSection.initialElevation := 0;
         Single.PipeSection.finalElevation := 0;
         Single.PipeSection.length := 100;
         Single.PipeSection.diameter := 0;
         Single.PipeSection.absoluteRoughness := 0.0002;
         Single.PipeSection.kinematicViscosity := 1.1e-5;
         Single.PipeSection.kValues := [0.5] |}
  /\ returns
       (Single.PipeSection.constructor 0 0 0 0 10 0 0 100 0.5 0.0002 1.1e-5 [])
     = true
  /\ raises
       (Single.PipeSection.constructor 0 0 0 0 10 0 0 0 0.5 0.0002 1.1e-5 [0.5])
       ValidationError.
Proof.
  unfold Single.PipeSection.constructor.
  rewrite !(lt_false _ 0), !(le_false 0.0002), !(le_false 1.1e-5),
    !(le_false 100), (le_true 0 0) by lra.
  refine (conj eq_refl (conj eq_refl _)).
  eexists. split; reflexivity.
Qed.

(** ** The theorems at concrete inputs *)

Lemma bandExampleSection_constructed :
  Banded.PipeSection.new bandExampleParams = Normal bandExampleSection.
Proof.
  unfold Banded.PipeSection.new, Banded.PipeSection.constructor,
    bandExampleParams, bandExampleSection. simpl.
  rewrite !le_false, !lt_false by lra. simpl.
  now rewrite strict_ne_true by lra.
Qed.

Lemma exampleSingleSection_constructed :
  Single.PipeSection.new exampleSingleParams = Normal exampleSingleSection.
Proof.
  unfold Single.PipeSection.new, Single.PipeSection.constructor,
    exampleSingleParams, exampleSingleSection. simpl.
  now rewrite !le_false, !lt_false by lra.
Qed.

(** The example aggregates are what [addPipeSection] builds from an empty
    one. *)
Lemma exampleSystem_built :
  Banded.System.addPipeSection (exampleParams 10) Banded.System.constructor
  = (Normal tt, exampleSystem).
Proof.
  unfold Banded.System.addPipeSection, bind, lift.
  now rewrite exampleSection_constructed.
Qed.

Lemma examplePipeline_built :
  Single.Pipeline.addPipeSection exampleSingleParams
    (Single.Pipeline.constructor None)
  = (Normal tt, examplePipeline).
Proof.
  unfold Single.Pipeline.addPipeSection, bind, lift.
  now rewrite exampleSingleSection_constructed.
Qed.

Lemma example_banded_reynolds_number :
  bandedReynoldsNumber (exampleSection 10) 0.001 = 8000 / 11 / PI.
Proof.
  pose proof PI_bounds as [Hlo Hhi].
  unfold bandedReynoldsNumber.
  cbn [exampleSection Banded.PipeSection.hydraulicArea
         Banded.PipeSection.diameter Banded.PipeSection.kinematicViscOfFluid].
  rewrite Math_pow_2. unfold math_pi, Math_max.
  replace (0.001 / (PI * 0.5 ^ 2 / 4) * (0.5 / 1.1e-5)) with (8000 / 11 / PI)
    by (decimals; field; lra).
  apply Rmax_left.
  apply Rle_trans with (8000 / 11 / 4); [lra |].
  unfold Rdiv. apply Rmult_le_compat_l; [lra |].
  apply Rinv_le_contravar; lra.
Qed.

Lemma example_reynolds_laminar : 0 < 8000 / 11 / PI < 2300.
Proof.
  pose proof PI_bounds as [Hlo Hhi]. split.
  - apply Rdiv_lt_0_compat; lra.
  - apply Rlt_trans with (8000 / 11 / 3); [| lra].
    unfold Rdiv. apply Rmult_lt_compat_l; [lra |].
    apply Rinv_lt_contravar; lra.
Qed.

(** The example section at a flow rate of 0.001: a Reynolds number of
    [8000 / (11 PI)], about 231. *)
Lemma laminar_friction_factor_witness :
  Single.SerghidesApproximation.calculateFrictionFactor (host := idealHost)
    (0.0002 / 0.5) (8000 / 11 / PI)
  = 64 / (8000 / 11 / PI)
  /\ Banded.PipeSection.calculateFrictionFactor (host := idealHost)
       (exampleSection 10) 0.001
     = 64 / (8000 / 11 / PI).
Proof.
  assert (Hrr : 0 < 0.0002 / 0.5) by lra.
  destruct (laminar_friction_factor idealHost (0.0002 / 0.5) (8000 / 11 / PI)
              Hrr example_reynolds_laminar) as [Hstrategy Hbanded].
  refine (conj Hstrategy
            (Hbanded (exampleSection 10) 0.001 eq_refl
               example_banded_reynolds_number)).
Defined.

(** The Colebrook method on a pipeline of one section and on the empty
    pipeline. *)
Lemma colebrook_is_refused_witness :
  Single.Pipeline.execute (host := idealHost) 10 (Some Single.COLEBROOK) true
    examplePipeline
  = (Throw (Error "Colebook method not implemented."), examplePipeline)
  /\ Single.Pipeline.execute (host := idealHost) 10 (Some Single.COLEBROOK)
       true (Single.Pipeline.constructor None)
     = (Throw (Error "No pipe sections exist."),
        Single.Pipeline.constructor None).
Proof.
  destruct (colebrook_is_refused idealHost) as (Hfull & Hempty & _).
  split.
  - apply Hfull. discriminate.
  - apply Hempty. reflexivity.
Defined.

(** The indices -1 and 1 on a list of one section. *)
Lemma invalid_index_rejected_witness :
  Banded.System.removePipeSection (-1) exampleSystem
  = (Throw (Error "Invalid pipe section index."), exampleSystem)
  /\ Banded.System.modifyPipeSection 1 (exampleParams 10) exampleSystem
     = (Throw (Error "Invalid pipe section index."), exampleSystem)
  /\ Single.Pipeline.removePipeSection 1 examplePipeline
     = (Throw (Error "Invalid pipe section index."), examplePipeline)
  /\ Single.Pipeline.modifyPipeSection (-1) exampleSingleParams
       examplePipeline
     = (Throw (Error "Invalid pipe section index."), examplePipeline).
Proof.
  destruct (invalid_index_rejected (-1)) as (Hsystem & Hpipeline & _).
  destruct (invalid_index_rejected 1) as (Hsystem' & Hpipeline' & _).
  refine (conj _ (conj _ (conj _ _))).
  - apply (Hsystem exampleSystem (exampleParams 10)). left. reflexivity.
  - apply (Hsystem' exampleSystem (exampleParams 10)). right. simpl. lia.
  - apply (Hpipeline' examplePipeline exampleSingleParams). right. simpl. lia.
  - apply (Hpipeline examplePipeline exampleSingleParams). left. reflexivity.
Defined.


(** ** Arrays: removing and replacing one element *)

Lemma splice1_length {A} (xs : list A) (i : nat) :
  (i < List.length xs)%nat ->
  List.length (splice1 xs i) = (List.length xs - 1)%nat.
Proof.
  revert i. induction xs as [| x tl IH]; intros i Hi; simpl in *; [lia |].
  destruct i as [| j]; simpl; [lia |].
  rewrite IH by lia. lia.
Qed.

Lemma splice1_nth_error {A} (xs : list A) (i j : nat) :
  (i < List.length xs)%nat ->
  nth_error (splice1 xs i) j
  = if (j <? i)%nat then nth_error xs j else nth_error xs (S j).
Proof.
  revert i j. induction xs as [| x tl IH]; intros i j Hi; simpl in *; [lia |].
  destruct i as [| i'].
  - reflexivity.
  - destruct j as [| j']; [reflexivity |].
    simpl. rewrite IH by lia.
    change (S j' <? S i')%nat with (j' <? i')%nat. reflexivity.
Qed.

Lemma splice1_last {A} (xs : list A) (x : A) :
  splice1 (xs ++ [x]) (List.length xs) = xs.
Proof. induction xs as [| y tl IH]; simpl; [reflexivity | now rewrite IH]. Qed.

Lemma assign_length {A} (xs : list A) (i : nat) (v : A) :
  List.length (assign xs i v) = List.length xs.
Proof.
  revert i. induction xs as [| x tl IH]; intro i; [reflexivity |].
  destruct i; simpl; [reflexivity | now rewrite IH].
Qed.

Lemma assign_nth_error {A} (xs : list A) (i j : nat) (v : A) :
  (i < List.length xs)%nat ->
  nth_error (assign xs i v) j
  = if (j =? i)%nat then Some v else nth_error xs j.
Proof.
  revert i j. induction xs as [| x tl IH]; intros i j Hi; simpl in *; [lia |].
  destruct i as [| i']; destruct j as [| j']; try reflexivity.
  simpl. now rewrite IH by lia.
Qed.

Lemma in_range_guard (index : Z) (n : nat) :
  (0 <= index < Z.of_nat n)%Z ->
  (index <? 0)%Z || (index >=? Z.of_nat n)%Z = false.
Proof.
  intros [Hlo Hhi]. apply orb_false_iff. split.
  - now apply Z.ltb_ge.
  - rewrite Z.geb_leb. apply Z.leb_gt. lia.
Qed.

(** ** Managing the sections, inside the range *)

(** X1.  [removePipeSection] with an index inside the list takes out exactly the
    section at that index: the sections before it keep their index, the
    ones after it move down by one. *)
Theorem remove_in_range (index : nat) :
  (forall system : Banded.System.t,
      (index < List.length (Banded.System.pipeSections system))%nat ->
      let result := Banded.System.removePipeSection (Z.of_nat index) system in
      let sections' := Banded.System.pipeSections (snd result) in
      fst result = Normal tt
      /\ List.length sections'
         = (List.length (Banded.System.pipeSections system) - 1)%nat
      /\ forall j,
           nth_error sections' j
           = if (j <? index)%nat
             then nth_error (Banded.System.pipeSections system) j
             else nth_error (Banded.System.pipeSections system) (S j))
  /\ (forall pipeline : Single.Pipeline.t,
        (index < List.length (Single.Pipeline.pipeSections pipeline))%nat ->
        let result :=
          Single.Pipeline.removePipeSection (Z.of_nat index) pipeline in
        let sections' := Single.Pipeline.pipeSections (snd result) in
        fst result = Normal tt
        /\ List.length sections'
           = (List.length (Single.Pipeline.pipeSections pipeline) - 1)%nat
        /\ forall j,
             nth_error sections' j
             = if (j <? index)%nat
               then nth_error (Single.Pipeline.pipeSections pipeline) j
               else nth_error (Single.Pipeline.pipeSections pipeline) (S j)).
Proof.
  split.
  - intros system Hi. cbv zeta.
    unfold Banded.System.removePipeSection, bind, gets, modify.
    rewrite in_range_guard by lia. cbn [fst snd Banded.System.pipeSections].
    rewrite Nat2Z.id.
    refine (conj eq_refl (conj (splice1_length _ _ Hi) _)).
    intro j. now apply splice1_nth_error.
  - intros pipeline Hi. cbv zeta.
    unfold Single.Pipeline.removePipeSection, bind, gets, modify.
    rewrite in_range_guard by lia. cbn [fst snd Single.Pipeline.pipeSections].
    rewrite Nat2Z.id.
    refine (conj eq_refl (conj (splice1_length _ _ Hi) _)).
    intro j. now apply splice1_nth_error.
Qed.

(** The section of index 0 taken out of a list of two, and out of a list of
    one. *)
Lemma remove_in_range_witness :
  (fst (Banded.System.removePipeSection 0
          {| Banded.System.pipeSections :=
               [exampleSection 20; exampleSection 40] |})
   = Normal tt
   /\ nth_error
        (Banded.System.pipeSections
           (snd (Banded.System.removePipeSection 0
                   {| Banded.System.pipeSections :=
                        [exampleSection 20; exampleSection 40] |})))
        0
      = Some (exampleSection 40))
  /\ fst (Single.Pipeline.removePipeSection 0 examplePipeline) = Normal tt.
Proof.
  destruct (remove_in_range 0) as [Hsystem Hpipeline].
  split.
  - destruct (Hsystem
                {| Banded.System.pipeSections :=
                     [exampleSection 20; exampleSection 40] |})
      as (Hfst & _ & Hnth).
    + simpl. lia.
    + split; [exact Hfst | exact (Hnth 0%nat)].
  - apply (Hpipeline examplePipeline). simpl. lia.
Defined.

(** X2.  [modifyPipeSection] with an index inside the list and arguments the
    constructor accepts puts the new section at that index and leaves the
    other sections where they are; with arguments the constructor rejects it
    throws the constructor's error and the list stays as it was. *)
Theorem modify_in_range (index : nat) :
  (forall (system : Banded.System.t)
          (newParams : Banded.PipeSection.ConstructorParameters),
      (index < List.length (Banded.System.pipeSections system))%nat ->
      let result :=
        Banded.System.modifyPipeSection (Z.of_nat index) newParams system in
      let sections' := Banded.System.pipeSections (snd result) in
      match Banded.PipeSection.new newParams with
      | Normal pipeSection =>
          fst result = Normal tt
          /\ List.length sections'
             = List.length (Banded.System.pipeSections system)
          /\ forall j,
               nth_error sections' j
               = if (j =? index)%nat then Some pipeSection
                 else nth_error (Banded.System.pipeSections system) j
      | Throw e => result = (Throw e, system)
      end)
  /\ (forall (pipeline : Single.Pipeline.t)
             (newParams : Single.PipeSection.ConstructorParameters),
        (index < List.length (Single.Pipeline.pipeSections pipeline))%nat ->
        let result :=
          Single.Pipeline.modifyPipeSection (Z.of_nat index) newParams
            pipeline in
        let sections' := Single.Pipeline.pipeSections (snd result) in
        match Single.PipeSection.new newParams with
        | Normal pipeSection =>
            fst result = Normal tt
            /\ List.length sections'
               = List.length (Single.Pipeline.pipeSections pipeline)
            /\ forall j,
                 nth_error sections' j
                 = if (j =? index)%nat then Some pipeSection
                   else nth_error (Single.Pipeline.pipeSections pipeline) j
        | Throw e => result = (Throw e, pipeline)
        end).
Proof.
  split.
  - intros system newParams Hi. cbv zeta.
    unfold Banded.System.modifyPipeSection, bind, gets, modify, lift.
    rewrite in_range_guard by lia.
    destruct (Banded.PipeSection.new newParams) as [pipeSection | e];
      [| reflexivity].
    cbn [fst snd Banded.System.pipeSections]. rewrite Nat2Z.id.
    refine (conj eq_refl (conj (assign_length _ _ _) _)).
    intro j. now apply assign_nth_error.
  - intros pipeline newParams Hi. cbv zeta.
    unfold Single.Pipeline.modifyPipeSection, bind, gets, modify, lift.
    rewrite in_range_guard by lia.
    destruct (Single.PipeSection.new newParams) as [pipeSection | e];
      [| reflexivity].
    cbn [fst snd Single.Pipeline.pipeSections]. rewrite Nat2Z.id.
    refine (conj eq_refl (conj (assign_length _ _ _) _)).
    intro j. now apply assign_nth_error.
Qed.

(** The only section of the example aggregates replaced. *)
Lemma modify_in_range_witness :
  nth_error
    (Banded.System.pipeSections
       (snd (Banded.System.modifyPipeSection 0 bandExampleParams
               exampleSystem)))
    0
  = Some bandExampleSection
  /\ fst (Single.Pipeline.modifyPipeSection 0 exampleSingleParams
            examplePipeline)
     = Normal tt.
Proof.
  destruct (modify_in_range 0) as [Hsystem Hpipeline].
  split.
  - assert (Hi : (0 < List.length (Banded.System.pipeSections exampleSystem))%nat)
      by (simpl; lia).
    pose proof (Hsystem exampleSystem bandExampleParams Hi) as H.
    cbv zeta in H. rewrite bandExampleSection_constructed in H.
    destruct H as (_ & _ & Hnth). exact (Hnth 0%nat).
  - assert (Hi : (0 < List.length
                         (Single.Pipeline.pipeSections examplePipeline))%nat)
      by (simpl; lia).
    pose proof (Hpipeline examplePipeline exampleSingleParams Hi) as H.
    cbv zeta in H. rewrite exampleSingleSection_constructed in H.
    destruct H as (Hfst & _). exact Hfst.
Defined.

(** X3.  [addPipeSection] with arguments the constructor accepts puts the new
    section after the ones already there; with arguments the constructor
    rejects it throws the constructor's error and adds nothing. *)
Theorem add_appends_or_throws :
  (forall (system : Banded.System.t)
          (pipeSectionParams : Banded.PipeSection.ConstructorParameters),
      Banded.System.addPipeSection pipeSectionParams system
      = match Banded.PipeSection.new pipeSectionParams with
        | Normal pipeSection =>
            (Normal tt,
             {| Banded.System.pipeSections :=
                  Banded.System.pipeSections system ++ [pipeSection] |})
        | Throw e => (Throw e, system)
        end)
  /\ (forall (pipeline : Single.Pipeline.t)
             (pipeSectionParams : Single.PipeSection.ConstructorParameters),
        Single.Pipeline.addPipeSection pipeSectionParams pipeline
        = match Single.PipeSection.new pipeSectionParams with
          | Normal pipeSection =>
              (Normal tt,
               {| Single.Pipeline.pipeSections :=
                    Single.Pipeline.pipeSections pipeline ++ [pipeSection] |})
          | Throw e => (Throw e, pipeline)
          end).
Proof.
  split.
  - intros system params.
    unfold Banded.System.addPipeSection, bind, lift, modify.
    destruct (Banded.PipeSection.new params); reflexivity.
  - intros pipeline params.
    unfold Single.Pipeline.addPipeSection, bind, lift, modify.
    destruct (Single.PipeSection.new params); reflexivity.
Qed.

(** X4.  Adding a section and then removing the section at the index that was
    the length of the list gives the list back. *)
Theorem add_then_remove_last :
  (forall (system : Banded.System.t)
          (pipeSectionParams : Banded.PipeSection.ConstructorParameters)
          (pipeSection : Banded.PipeSection.t),
      Banded.PipeSection.new pipeSectionParams = Normal pipeSection ->
      let n := Z.of_nat (List.length (Banded.System.pipeSections system)) in
      Banded.System.removePipeSection n
        (snd (Banded.System.addPipeSection pipeSectionParams system))
      = (Normal tt, system))
  /\ (forall (pipeline : Single.Pipeline.t)
             (pipeSectionParams : Single.PipeSection.ConstructorParameters)
             (pipeSection : Single.PipeSection.t),
        Single.PipeSection.new pipeSectionParams = Normal pipeSection ->
        let n :=
          Z.of_nat (List.length (Single.Pipeline.pipeSections pipeline)) in
        Single.Pipeline.removePipeSection n
          (snd (Single.Pipeline.addPipeSection pipeSectionParams pipeline))
        = (Normal tt, pipeline)).
Proof.
  split.
  - intros [sections] params pipeSection Hnew. cbv zeta.
    unfold Banded.System.addPipeSection, bind, lift, modify. rewrite Hnew.
    cbn [snd Banded.System.pipeSections].
    unfold Banded.System.removePipeSection, bind, gets, modify.
    cbn [Banded.System.pipeSections].
    rewrite in_range_guard by (rewrite length_app; simpl; lia).
    cbv beta. cbn [Banded.System.pipeSections].
    now rewrite Nat2Z.id, splice1_last.
  - intros [sections] params pipeSection Hnew. cbv zeta.
    unfold Single.Pipeline.addPipeSection, bind, lift, modify. rewrite Hnew.
    cbn [snd Single.Pipeline.pipeSections].
    unfold Single.Pipeline.removePipeSection, bind, gets, modify.
    cbn [Single.Pipeline.pipeSections].
    rewrite in_range_guard by (rewrite length_app; simpl; lia).
    cbv beta. cbn [Single.Pipeline.pipeSections].
    now rewrite Nat2Z.id, splice1_last.
Qed.

(** A second section added to the example aggregates and removed again. *)
Lemma add_then_remove_last_witness :
  Banded.System.removePipeSection 1
    (snd (Banded.System.addPipeSection bandExampleParams exampleSystem))
  = (Normal tt, exampleSystem)
  /\ Single.Pipeline.removePipeSection 1
       (snd (Single.Pipeline.addPipeSection exampleSingleParams
               examplePipeline))
     = (Normal tt, examplePipeline).
Proof.
  destruct add_then_remove_last as [Hsystem Hpipeline].
  split.
  - exact (Hsystem exampleSystem bandExampleParams bandExampleSection
             bandExampleSection_constructed).
  - exact (Hpipeline examplePipeline exampleSingleParams exampleSingleSection
             exampleSingleSection_constructed).
Defined.


(** ** The system curve, point by point *)

Lemma banded_execute_nth (host : Host) (s : Banded.PipeSection.t) (i : nat) :
  (i < 20)%nat ->
  nth i (Banded.PipeSection.execute s) (0, 0, 0) = bandedRow s i.
Proof.
  intro Hi. apply nth_error_nth. now apply banded_execute_nth_error.
Qed.

Lemma banded_execute_rows (host : Host) (s : Banded.PipeSection.t) :
  Banded.PipeSection.execute s = map (bandedRow s) (seq 0 20).
Proof.
  unfold Banded.PipeSection.execute, Banded.PipeSection.generateFlowRange,
    Array_from.
  rewrite map_map. apply map_ext. intro i. unfold bandedRow. cbv zeta.
  now destruct (Banded.PipeSection.calculateTDH s _).
Qed.

Lemma last_flow_of_last {A} (f : A -> R) (xs : list A) (d : A) (c : R) :
  xs <> [] -> fold_left (fun _ x => f x) xs c = f (last xs d).
Proof.
  revert c. induction xs as [| x tl IH]; intros c Hne; [congruence |].
  destruct tl as [| y tl']; [reflexivity |].
  change (fold_left (fun _ x0 => f x0) (y :: tl') (f x) = f (last (y :: tl') d)).
  apply IH. discriminate.
Qed.

(** X5.  On an aggregate without sections the evaluation throws the error for an
    empty pipeline, whatever the method asked for, and leaves the aggregate
    as it was. *)
Theorem empty_aggregate_is_refused (host : Host) :
  Banded.System.calcTDH Banded.System.constructor
  = (Throw (Error "No pipe sections exist."), Banded.System.constructor)
  /\ (forall (targetFlowRate : R)
             (approximationMethod : option Single.ApproximationMethod)
             (isImperial : bool) (pipeline : Single.Pipeline.t),
        Single.Pipeline.pipeSections pipeline = [] ->
        Single.Pipeline.execute targetFlowRate approximationMethod isImperial
          pipeline
        = (Throw (Error "No pipe sections exist."), pipeline))
  /\ (forall system : Banded.System.t,
        Banded.System.pipeSections system = [] ->
        Banded.System.calcTDH system
        = (Throw (Error "No pipe sections exist."), system)).
Proof.
  refine (conj eq_refl (conj _ _)).
  - intros targetFlowRate approximationMethod isImperial [sections] He.
    simpl in He. subst sections. reflexivity.
  - intros [sections] He. simpl in He. subst sections. reflexivity.
Qed.

(** Every method on the pipeline that [new Pipeline()] builds, and the
    evaluation of a system emptied by [removePipeSection]. *)
Lemma empty_aggregate_is_refused_witness :
  Single.Pipeline.execute (host := idealHost) 10 None true
    (Single.Pipeline.constructor None)
  = (Throw (Error "No pipe sections exist."), Single.Pipeline.constructor None)
  /\ Banded.System.calcTDH (host := idealHost)
       (snd (Banded.System.removePipeSection 0 exampleSystem))
     = (Throw (Error "No pipe sections exist."),
        snd (Banded.System.removePipeSection 0 exampleSystem)).
Proof.
  destruct (empty_aggregate_is_refused idealHost) as (_ & Hpipeline & Hsystem).
  split.
  - apply Hpipeline. reflexivity.
  - apply Hsystem. reflexivity.
Defined.

(** X6.  For a system with at least one section, [calcTDH] returns twenty
    tuples; the tuple of index [i] holds the sum over the sections of the
    maximum heads of their tuples of index [i], the sum of the minimum
    heads, and the flow rate of the tuple of index [i] of the last
    section. *)
Theorem system_curve_pointwise
  (host : Host) (sections : list Banded.PipeSection.t) :
  sections <> [] ->
  exists curve,
    Banded.System.calcTDH {| Banded.System.pipeSections := sections |}
    = (Normal curve, {| Banded.System.pipeSections := sections |})
    /\ List.length curve = 20%nat
    /\ forall (i : nat) (d : Banded.PipeSection.t), (i < 20)%nat ->
         let row (s : Banded.PipeSection.t) :=
           nth i (Banded.PipeSection.execute s) (0, 0, 0) in
         nth i curve (0, 0, 0)
         = (Rsum (map (fun s => fst (fst (row s))) sections),
            Rsum (map (fun s => snd (fst (row s))) sections),
            snd (row (last sections d))).
Proof.
  intro Hne. eexists. refine (conj (calcTDH_value host sections Hne) _).
  split; [now rewrite length_map, length_seq |].
  intros i d Hi. cbv zeta.
  rewrite (nth_indep _ (0, 0, 0) (systemRow sections 0))
    by now rewrite length_map, length_seq.
  rewrite map_nth, seq_nth by assumption. cbn [Nat.add].
  unfold systemRow.
  rewrite (last_flow_of_last (fun s => snd (bandedRow s i)) sections d 0 Hne).
  assert (Hrow : forall s,
             nth i (Banded.PipeSection.execute s) (0, 0, 0) = bandedRow s i)
    by (intro s; now apply banded_execute_nth).
  rewrite Hrow.
  rewrite (map_ext (fun s => fst (fst (nth i (Banded.PipeSection.execute s)
                                         (0, 0, 0))))
             (fun s => fst (fst (bandedRow s i))))
    by (intro s; now rewrite Hrow).
  rewrite (map_ext (fun s => snd (fst (nth i (Banded.PipeSection.execute s)
                                         (0, 0, 0))))
             (fun s => snd (fst (bandedRow s i))))
    by (intro s; now rewrite Hrow).
  reflexivity.
Qed.

(** Two sections sampling different target flow rates: the flow rate of
    index 19 is the last sample of the second one. *)
Lemma system_curve_pointwise_witness :
  exists curve,
    fst (Banded.System.calcTDH (host := idealHost)
           {| Banded.System.pipeSections :=
                [exampleSection 20; exampleSection 40] |})
    = Normal curve
    /\ List.length curve = 20%nat
    /\ snd (nth 19 curve (0, 0, 0)) = 40.
Proof.
  destruct (system_curve_pointwise idealHost
              [exampleSection 20; exampleSection 40])
    as (curve & Hrun & Hlen & Hrows).
  - discriminate.
  - exists curve. rewrite Hrun. refine (conj eq_refl (conj Hlen _)).
    rewrite (Hrows 19%nat (exampleSection 0)) by lia.
    cbn [snd last]. rewrite banded_execute_nth by lia.
    unfold bandedRow. cbn [snd exampleSection Banded.PipeSection.targetFlowRate].
    simpl. lra.
Defined.

Lemma Rsum_app (l l' : list R) : Rsum (l ++ l') = Rsum l + Rsum l'.
Proof.
  induction l as [| x tl IH]; simpl; [ring |]. rewrite IH. ring.
Qed.

Lemma systemRow_app
  (host : Host) (sections : list Banded.PipeSection.t)
  (s : Banded.PipeSection.t) (i : nat) :
  systemRow (sections ++ [s]) i
  = (fst (fst (systemRow sections i)) + fst (fst (bandedRow s i)),
     snd (fst (systemRow sections i)) + snd (fst (bandedRow s i)),
     snd (bandedRow s i)).
Proof.
  unfold systemRow. cbn [fst snd].
  rewrite !map_app, !Rsum_app, fold_left_app. cbn [map Rsum fold_right fold_left].
  now rewrite !Rplus_0_r.
Qed.

Lemma map_seq_nth {A} (f : nat -> A) (n i : nat) (d : A) :
  (i < n)%nat -> nth i (map f (seq 0 n)) d = f i.
Proof. intro Hi. now apply (Array_from_nth n f i d). Qed.

(** ** Comparisons that fail *)

Lemma le_false_iff (a b : R) : le a b = false <-> b < a.
Proof.
  unfold le. destruct (Rle_dec a b); split; intro H;
    (reflexivity || discriminate || lra).
Qed.

Lemma lt_false_iff (a b : R) : lt a b = false <-> b <= a.
Proof.
  unfold lt. destruct (Rlt_dec a b); split; intro H;
    (reflexivity || discriminate || lra).
Qed.

(** ** The size of the losses *)









(** ** Edge inputs of the evaluation *)

(** X17.  A target flow rate of zero or below is not refused: every flow rate
    sampled from it is clamped to the floor, so the twenty tuples of
    [execute] all carry the heads of the flow rate [1e-6]. *)
Theorem nonpositive_target_gives_flat_curve
  (host : Host) (s : Banded.PipeSection.t) :
  Banded.PipeSection.targetFlowRate s <= 0 ->
  List.length (Banded.PipeSection.execute s) = 20%nat
  /\ Forall
       (fun '(maxTDH, minTDH, flowRate) =>
          flowRate <= 0
          /\ (maxTDH, minTDH) = Banded.PipeSection.calculateTDH s 1e-6)
       (Banded.PipeSection.execute s).
Proof.
  intro Ht. split; [apply banded_execute_length |].
  rewrite banded_execute_rows. apply Forall_map, Forall_forall.
  intros i _. unfold bandedRow. cbv zeta.
  assert (Hq : Banded.PipeSection.targetFlowRate s / 20 * (INR i + 1) <= 0).
  { pose proof (pos_INR i). nra. }
  split; [exact Hq |].
  rewrite <- surjective_pairing.
  unfold Banded.PipeSection.calculateTDH. cbv zeta. unfold Math_max.
  rewrite (Rmax_right _ 1e-6) by lra.
  now rewrite (Rmax_left 1e-6 1e-6) by lra.
Qed.

(** The example section built for a target flow rate of 0. *)
Lemma nonpositive_target_gives_flat_curve_witness :
  Banded.PipeSection.new (exampleParams 0) = Normal (exampleSection 0)
  /\ Forall
       (fun '(maxTDH, minTDH, flowRate) =>
          flowRate <= 0
          /\ (maxTDH, minTDH)
             = Banded.PipeSection.calculateTDH (host := idealHost)
                 (exampleSection 0) 1e-6)
       (Banded.PipeSection.execute (host := idealHost) (exampleSection 0)).
Proof.
  split; [apply exampleSection_constructed |].
  apply (nonpositive_target_gives_flat_curve idealHost (exampleSection 0)).
  cbn. lra.
Defined.

(** X18.  The banded section uses its two velocities only to decide whether
    they differ: two sections built from the same arguments but for the
    velocities, each with two different velocities, have the same curve. *)
Theorem velocity_values_do_not_matter
  (host : Host)
  (p1 p2 v1 v2 v1' v2' z1_min z2_min z1_max z2_max : R)
  (length diameter absoluteRoughness kinematicViscOfFluid : R)
  (targetFlowRate : R) (appurtenanceKValues : list R)
  (s s' : Banded.PipeSection.t) :
  v2 <> v1 ->
  v2' <> v1' ->
  Banded.PipeSection.constructor p1 p2 v1 v2 z1_min z2_min z1_max z2_max
    length diameter absoluteRoughness kinematicViscOfFluid targetFlowRate
    appurtenanceKValues
  = Normal s ->
  Banded.PipeSection.constructor p1 p2 v1' v2' z1_min z2_min z1_max z2_max
    length diameter absoluteRoughness kinematicViscOfFluid targetFlowRate
    appurtenanceKValues
  = Normal s' ->
  Banded.PipeSection.execute s = Banded.PipeSection.execute s'.
Proof.
  intros Hv Hv' Hs Hs'.
  unfold Banded.PipeSection.constructor in Hs, Hs'.
  repeat match type of Hs with
         | (if ?c then _ else _) = _ => destruct c; [discriminate |]
         end.
  rewrite (strict_ne_true _ _ Hv) in Hs.
  rewrite (strict_ne_true _ _ Hv') in Hs'.
  injection Hs as <-. injection Hs' as <-. reflexivity.
Qed.

(** The banded example with a band has velocities 0 and 3; with velocities
    100 and 1 the curve is the same. *)
Lemma velocity_values_do_not_matter_witness :
  exists s',
    Banded.PipeSection.constructor 10 12 100 1 0 5 2 9 250 0.75 0.0005 1.1e-5
      10 [0.5; 1.5]
    = Normal s'
    /\ Banded.PipeSection.execute (host := idealHost) bandExampleSection
       = Banded.PipeSection.execute (host := idealHost) s'.
Proof.
  eexists. split.
  - unfold Banded.PipeSection.constructor.
    rewrite !le_false, !lt_false by lra. cbn [List.length Nat.eqb orb].
    rewrite strict_ne_true by lra. reflexivity.
  - eapply (velocity_values_do_not_matter idealHost 10 12 0 3 100 1
              0 5 2 9 250 0.75 0.0005 1.1e-5 10 [0.5; 1.5]).
    + lra.
    + lra.
    + exact bandExampleSection_constructed.
    + unfold Banded.PipeSection.constructor.
      rewrite !le_false, !lt_false by lra. cbn [List.length Nat.eqb orb].
      rewrite strict_ne_true by lra. reflexivity.
Defined.

(** ** Assigning the fields of a section *)

Lemma single_new_rejects
  (a : Single.PipeSection.ConstructorParameters) :
  Single.PipeSection.arg_diameter a < 0
  \/ Single.PipeSection.arg_length a <= 0
  \/ Single.PipeSection.arg_absoluteRoughness a <= 0
  \/ Single.PipeSection.arg_kinematicViscosity a <= 0 ->
  raises (Single.PipeSection.new a) ValidationError.
Proof.
  intro Hbad.
  unfold Single.PipeSection.new, Single.PipeSection.constructor, raises.
  repeat match goal with
         | |- context [if ?c then Throw ?e else _] =>
             destruct c eqn:?; [exists e; split; reflexivity |]
         end.
  exfalso.
  repeat match goal with
         | H : le _ _ = false |- _ => apply le_false_iff in H
         | H : lt _ _ = false |- _ => apply lt_false_iff in H
         end.
  lra.
Qed.

(** X20.  The setters of the four fields that the constructor validates assign
    any value without validating it: the call completes, the getter then
    returns the value, and when the value is one the constructor refuses, the
    section is left in a state from which the constructor would build
    nothing. *)
Theorem setters_skip_validation (s : Single.PipeSection.t) (value : R) :
  (fst (SingleAccessors.set_diameter value s) = Normal tt
   /\ fst (SingleAccessors.get_diameter
             (snd (SingleAccessors.set_diameter value s)))
      = Normal value
   /\ (value < 0 ->
       raises
         (Single.PipeSection.new
            (sameArguments (snd (SingleAccessors.set_diameter value s))))
         ValidationError))
  /\ (fst (SingleAccessors.set_length value s) = Normal tt
      /\ fst (SingleAccessors.get_length
                (snd (SingleAccessors.set_length value s)))
         = Normal value
      /\ (value <= 0 ->
          raises
            (Single.PipeSection.new
               (sameArguments (snd (SingleAccessors.set_length value s))))
            ValidationError))
  /\ (fst (SingleAccessors.set_absoluteRoughness value s) = Normal tt
      /\ fst (SingleAccessors.get_absoluteRoughness
                (snd (SingleAccessors.set_absoluteRoughness value s)))
         = Normal value
      /\ (value <= 0 ->
          raises
            (Single.PipeSection.new
               (sameArguments
                  (snd (SingleAccessors.set_absoluteRoughness value s))))
            ValidationError))
  /\ (fst (SingleAccessors.set_kinematicViscosity value s) = Normal tt
      /\ fst (SingleAccessors.get_kinematicViscosity
                (snd (SingleAccessors.set_kinematicViscosity value s)))
         = Normal value
      /\ (value <= 0 ->
          raises
            (Single.PipeSection.new
               (sameArguments
                  (snd (SingleAccessors.set_kinematicViscosity value s))))
            ValidationError)).
Proof.
  repeat split; intro Hbad; apply single_new_rejects; cbn; tauto.
Qed.

(** The example section with its length set to 0. *)
Lemma setters_skip_validation_witness :
  Single.PipeSection.new (sameArguments exampleSingleSection)
  = Normal exampleSingleSection
  /\ fst (SingleAccessors.set_length 0 exampleSingleSection) = Normal tt
  /\ raises
       (Single.PipeSection.new
          (sameArguments
             (snd (SingleAccessors.set_length 0 exampleSingleSection))))
       ValidationError.
Proof.
  destruct (setters_skip_validation exampleSingleSection 0)
    as (_ & (Hset & _ & Hrejected) & _).
  refine (conj exampleSingleSection_constructed (conj Hset _)).
  apply Hrejected. lra.
Defined.

(** ** The flow-rate range, as generated *)

Lemma banded_flow_range64_nth
  (s : Binary64.Banded.PipeSection.t) (i : nat) :
  (i < 20)%nat ->
  nth i (Binary64.Banded.PipeSection.generateFlowRange s) 0%float
  = (Binary64.Banded.PipeSection.targetFlowRate s / 20
     * (Binary64.of_index i + 1))%float.
Proof.
  intro Hi. unfold Binary64.Banded.PipeSection.generateFlowRange.
  now rewrite Array_from_nth.
Qed.

Lemma pipeline_flow_range64_nth (targetFlowRate : float) (i : nat) :
  (i < 20)%nat ->
  nth i (Binary64.Single.Pipeline.generateFlowRange targetFlowRate) 0%float
  = (targetFlowRate / 10 * Binary64.of_index i)%float.
Proof.
  intro Hi. unfold Binary64.Single.Pipeline.generateFlowRange.
  now rewrite Array_from_nth.
Qed.

(** On binary64 numbers the samples are rounded.  For a target of 0.11 the
    last sample of the banded range is 0.10999999999999999, and so is the
    sample of index 10 of the range of [Pipeline]; for the smallest positive
    target the step is 0 and the twenty samples are equal. *)
Lemma flow_range_samples_are_rounded :
  Binary64.Banded.PipeSection.constructor (host := exampleHost64)
    0 0 0 0 0 0 0 0 100 0.5 0.0002 1 0.11 [0.5]%float
  = Normal (viscousFlatSection64 0.11 [0.5]%float)
  /\ last (Binary64.Banded.PipeSection.generateFlowRange
             (viscousFlatSection64 0.11 [0.5]%float)) 0%float
     = 0.10999999999999999%float
  /\ (0.10999999999999999 =? 0.11)%float = false
  /\ nth 10 (Binary64.Single.Pipeline.generateFlowRange 0.11) 0%float
     = 0.10999999999999999%float
  /\ (0 <? 5e-324)%float = true
  /\ Binary64.Banded.PipeSection.generateFlowRange
       (viscousFlatSection64 5e-324 [0.5]%float)
     = repeat 0%float 20.
Proof.
  refine (conj _ (conj _ (conj _ (conj _ (conj _ _)))));
    vm_compute; reflexivity.
Qed.

(** C2, as the two generators behave.  For a positive target both ranges
    have twenty samples that never decrease.  The banded section samples
    [(target/20) * (i+1)]; [Pipeline] samples [(target/10) * i] and starts
    at 0.  On binary64 numbers the samples are these products, rounded: for
    a target of 0.11 the sample that should be the target is
    0.10999999999999999, and for the smallest positive target the twenty
    samples are equal. *)
Theorem flow_ranges_as_generated
  (s : Banded.PipeSection.t) (targetFlowRate : R) :
  0 < Banded.PipeSection.targetFlowRate s ->
  0 < targetFlowRate ->
  (List.length (Banded.PipeSection.generateFlowRange s) = 20%nat
   /\ (forall i, (i < 20)%nat ->
         nth i (Banded.PipeSection.generateFlowRange s) 0
         = (Banded.PipeSection.targetFlowRate s / 20) * (INR i + 1))
   /\ nonDecreasing (Banded.PipeSection.generateFlowRange s))
  /\ (List.length (Single.Pipeline.generateFlowRange targetFlowRate) = 20%nat
      /\ (forall i, (i < 20)%nat ->
            nth i (Single.Pipeline.generateFlowRange targetFlowRate) 0
            = (targetFlowRate / 10) * INR i)
      /\ nonDecreasing (Single.Pipeline.generateFlowRange targetFlowRate)
      /\ nth 0 (Single.Pipeline.generateFlowRange targetFlowRate) 0 = 0)
  /\ (forall s64 : Binary64.Banded.PipeSection.t,
        List.length (Binary64.Banded.PipeSection.generateFlowRange s64)
        = 20%nat
        /\ forall i, (i < 20)%nat ->
           nth i (Binary64.Banded.PipeSection.generateFlowRange s64) 0%float
           = (Binary64.Banded.PipeSection.targetFlowRate s64 / 20
              * (Binary64.of_index i + 1))%float)
  /\ (forall targetFlowRate64 : float,
        List.length
          (Binary64.Single.Pipeline.generateFlowRange targetFlowRate64)
        = 20%nat
        /\ forall i, (i < 20)%nat ->
           nth i (Binary64.Single.Pipeline.generateFlowRange
                    targetFlowRate64) 0%float
           = (targetFlowRate64 / 10 * Binary64.of_index i)%float)
  /\ (last (Binary64.Banded.PipeSection.generateFlowRange
              (viscousFlatSection64 0.11 [0.5]%float)) 0%float
      = 0.10999999999999999%float
      /\ nth 10 (Binary64.Single.Pipeline.generateFlowRange 0.11) 0%float
         = 0.10999999999999999%float
      /\ (0.10999999999999999 =? 0.11)%float = false
      /\ (0 <? 5e-324)%float = true
      /\ Binary64.Banded.PipeSection.generateFlowRange
           (viscousFlatSection64 5e-324 [0.5]%float)
         = repeat 0%float 20).
Proof.
  intros Hs Ht.
  destruct flow_range_samples_are_rounded
    as (_ & Hlast & Hne & Hmid & Hpos & Hflat).
  assert (HlenB : List.length (Banded.PipeSection.generateFlowRange s)
                  = 20%nat)
    by (unfold Banded.PipeSection.generateFlowRange;
        apply Array_from_length).
  assert (HlenP : List.length (Single.Pipeline.generateFlowRange
                                 targetFlowRate) = 20%nat)
    by (unfold Single.Pipeline.generateFlowRange; apply Array_from_length).
  refine (conj (conj HlenB (conj _ _))
            (conj (conj HlenP (conj _ (conj _ _)))
               (conj (fun s64 => conj _ _)
                  (conj (fun targetFlowRate64 => conj _ _)
                     (conj Hlast (conj Hmid (conj Hne (conj Hpos Hflat)))))))).
  - intros i Hi. now apply banded_flow_range_nth.
  - intros i j [Hij Hj]. rewrite HlenB in Hj.
    rewrite !banded_flow_range_nth by lia.
    apply le_INR in Hij.
    apply Rmult_le_compat_l; lra.
  - intros i Hi. now apply pipeline_flow_range_nth.
  - intros i j [Hij Hj]. rewrite HlenP in Hj.
    rewrite !pipeline_flow_range_nth by lia.
    apply le_INR in Hij.
    apply Rmult_le_compat_l; lra.
  - rewrite pipeline_flow_range_nth by lia. simpl. ring.
  - unfold Binary64.Banded.PipeSection.generateFlowRange.
    apply Array_from_length.
  - intros i Hi. now apply banded_flow_range64_nth.
  - unfold Binary64.Single.Pipeline.generateFlowRange.
    apply Array_from_length.
  - intros i Hi. now apply pipeline_flow_range64_nth.
Qed.

(** The example section with a target of 10 samples 0.5, 1, ..., 10; the
    pipeline samples 0, 1, ..., 19. *)
Lemma flow_ranges_as_generated_witness :
  nth 19 (Banded.PipeSection.generateFlowRange (exampleSection 10)) 0 = 10
  /\ nth 19 (Single.Pipeline.generateFlowRange 10) 0 = 19
  /\ nonDecreasing (Banded.PipeSection.generateFlowRange (exampleSection 10))
  /\ nonDecreasing (Single.Pipeline.generateFlowRange 10)
  /\ nth 19 (Binary64.Single.Pipeline.generateFlowRange 0.11) 0%float
     = (0.11 / 10 * Binary64.of_index 19)%float.
Proof.
  assert (Hs : 0 < Banded.PipeSection.targetFlowRate (exampleSection 10))
    by (simpl; lra).
  assert (Ht : 0 < 10) by lra.
  destruct (flow_ranges_as_generated (exampleSection 10) 10 Hs Ht)
    as [[_ [HnthB HmonoB]] [[_ [HnthP [HmonoP _]]] [_ [Hnth64 _]]]].
  refine (conj _ (conj _ (conj HmonoB (conj HmonoP _)))).
  - rewrite HnthB by lia. simpl. lra.
  - rewrite HnthP by lia. simpl. lra.
  - apply (Hnth64 0.11%float). lia.
Defined.

(** ** The heads of one section *)

(** The heads that [calculateTDH] returns are the static heads of the band
    plus the same losses, the pressure head taken with the factor 2.31. *)
Lemma banded_heads_as_losses
  (host : Host) (s : Banded.PipeSection.t) (flowRate : R) :
  Banded.PipeSection.calculateTDH s flowRate
  = (Banded.PipeSection.z2_max s - Banded.PipeSection.z1_min s
     + bandedLossesFor s (bandedPressureHead s true) flowRate,
     Banded.PipeSection.z2_min s - Banded.PipeSection.z1_max s
     + bandedLossesFor s (bandedPressureHead s true) flowRate).
Proof. reflexivity. Qed.





Lemma banded_execute64_nth
  (host : Binary64.Host) (s : Binary64.Banded.PipeSection.t) (i : nat) :
  (i < 20)%nat ->
  nth_error (Binary64.Banded.PipeSection.execute s) i
  = Some (bandedRow64 s i).
Proof.
  intro Hi. unfold Binary64.Banded.PipeSection.execute,
    Binary64.Banded.PipeSection.generateFlowRange.
  rewrite nth_error_map, Array_from_nth_error by assumption.
  cbn [option_map]. unfold bandedRow64. cbv zeta.
  destruct (Binary64.Banded.PipeSection.calculateTDH s _) as [maxTDH minTDH].
  reflexivity.
Qed.

Lemma banded_execute64_length
  (host : Binary64.Host) (s : Binary64.Banded.PipeSection.t) :
  List.length (Binary64.Banded.PipeSection.execute s) = 20%nat.
Proof.
  unfold Binary64.Banded.PipeSection.execute,
    Binary64.Banded.PipeSection.generateFlowRange.
  now rewrite length_map, Array_from_length.
Qed.

(** C8 fails on binary64 numbers: the two heads of a tuple are rounded
    separately.  The banded example in a viscous fluid has a band of 6; the
    heads of its first tuple are 514.0298301641669 and 508.02983016416687,
    which differ by 6.0000000000000568, while the heads of its second tuple
    differ by 6. *)
Lemma band_width_is_rounded :
  Binary64.Banded.PipeSection.constructor (host := exampleHost64)
    10 12 0 3 0 5 2 9 250 0.75 0.0005 1 10 [0.5; 1.5]%float
  = Normal viscousBandSection64
  /\ ((Binary64.Banded.PipeSection.z2_max viscousBandSection64
       - Binary64.Banded.PipeSection.z1_min viscousBandSection64)
      - (Binary64.Banded.PipeSection.z2_min viscousBandSection64
         - Binary64.Banded.PipeSection.z1_max viscousBandSection64))%float
     = 6%float
  /\ nth 0 (Binary64.Banded.PipeSection.execute (host := exampleHost64)
              viscousBandSection64) (0, 0, 0)%float
     = (514.0298301641669, 508.02983016416687, 0.5)%float
  /\ bandWidth64
       (nth 0 (Binary64.Banded.PipeSection.execute (host := exampleHost64)
                 viscousBandSection64) (0, 0, 0)%float)
     = 6.0000000000000568%float
  /\ (6.0000000000000568 =? 6)%float = false
  /\ bandWidth64
       (nth 1 (Binary64.Banded.PipeSection.execute (host := exampleHost64)
                 viscousBandSection64) (0, 0, 0)%float)
     = 6%float.
Proof.
  refine (conj _ (conj _ (conj _ (conj _ (conj _ _)))));
    vm_compute; reflexivity.
Qed.

(** The examples on binary64 numbers are laminar: their tuples are the
    same on every host that squares as above, whatever its other powers
    and its logarithm are. *)
Lemma viscous_example_on_every_host
  (pow : float -> float -> float) (log10 : float -> float) :
  Binary64.Banded.PipeSection.execute
    (host := Binary64.squaringHost pow log10) viscousBandSection64
  = Binary64.Banded.PipeSection.execute (host := exampleHost64)
      viscousBandSection64.
Proof. vm_compute. reflexivity. Qed.

(** C8, as the code computes the heads.  In each of the twenty tuples the
    first head is the static head [z2_max - z1_min] plus the losses at the
    sampled flow rate, and the second head is the static head
    [z2_min - z1_max] plus the same losses; when the two static heads are
    equal the two heads are equal.  The tuples on binary64 numbers have the
    same form, each sum rounded. *)
Theorem heads_share_the_losses
  (host : Host) (s : Banded.PipeSection.t) (i : nat) :
  (i < 20)%nat ->
  let row := nth i (Banded.PipeSection.execute s) (0, 0, 0) in
  let totalLosses :=
    bandedLossesFor s (bandedPressureHead s true) (bandedFlowRate s i) in
  List.length (Banded.PipeSection.execute s) = 20%nat
  /\ row
     = (Banded.PipeSection.z2_max s - Banded.PipeSection.z1_min s
        + totalLosses,
        Banded.PipeSection.z2_min s - Banded.PipeSection.z1_max s
        + totalLosses,
        bandedFlowRate s i)
  /\ (Banded.PipeSection.z2_max s - Banded.PipeSection.z1_min s
      = Banded.PipeSection.z2_min s - Banded.PipeSection.z1_max s ->
      fst (fst row) = snd (fst row))
  /\ forall (host64 : Binary64.Host) (s64 : Binary64.Banded.PipeSection.t),
       let flowRate64 :=
         (Binary64.Banded.PipeSection.targetFlowRate s64 / 20
          * (Binary64.of_index i + 1))%float in
       nth i (Binary64.Banded.PipeSection.execute s64) (0, 0, 0)%float
       = ((Binary64.Banded.PipeSection.z2_max s64
           - Binary64.Banded.PipeSection.z1_min s64
           + bandedLosses64 s64 flowRate64)%float,
          (Binary64.Banded.PipeSection.z2_min s64
           - Binary64.Banded.PipeSection.z1_max s64
           + bandedLosses64 s64 flowRate64)%float,
          flowRate64).
Proof.
  intro Hi. cbv zeta.
  assert (Hrow :
    nth i (Banded.PipeSection.execute s) (0, 0, 0)
    = (Banded.PipeSection.z2_max s - Banded.PipeSection.z1_min s
       + bandedLossesFor s (bandedPressureHead s true) (bandedFlowRate s i),
       Banded.PipeSection.z2_min s - Banded.PipeSection.z1_max s
       + bandedLossesFor s (bandedPressureHead s true) (bandedFlowRate s i),
       bandedFlowRate s i)).
  { rewrite banded_execute_nth by assumption.
    unfold bandedRow. rewrite banded_heads_as_losses. reflexivity. }
  refine (conj (banded_execute_length host s) (conj Hrow (conj _ _))).
  - intro Hflat. rewrite Hrow. cbn [fst snd]. now rewrite Hflat.
  - intros host64 s64. apply nth_error_nth.
    rewrite banded_execute64_nth by assumption. reflexivity.
Qed.

(** The tuple of index 16 of the banded example: static heads of 9 and 3
    over the same losses. *)
Lemma heads_share_the_losses_witness :
  Banded.PipeSection.new bandExampleParams = Normal bandExampleSection
  /\ fst (nth 16 (Banded.PipeSection.execute (host := idealHost)
                    bandExampleSection) (0, 0, 0))
     = (9 - 0
        + bandedLossesFor (host := idealHost) bandExampleSection 4.62 8.5,
        5 - 2
        + bandedLossesFor (host := idealHost) bandExampleSection 4.62 8.5).
Proof.
  split; [exact bandExampleSection_constructed |].
  assert (Hi : (16 < 20)%nat) by lia.
  destruct (heads_share_the_losses idealHost bandExampleSection 16 Hi)
    as [_ [Hrow _]].
  rewrite Hrow. cbn [fst].
  replace (bandedFlowRate bandExampleSection 16) with 8.5
    by (unfold bandedFlowRate; simpl; lra).
  replace (bandedPressureHead bandExampleSection true) with 4.62
    by (unfold bandedPressureHead, unitFactorOf; simpl; lra).
  reflexivity.
Defined.

(** ** Reordering the sections, as the code accumulates *)

(** *** Addition on binary64 numbers *)




(** *** The curve of [System.calcTDH] on binary64 numbers *)

Lemma calcTDH64_value
  (host : Binary64.Host) (sections : list Binary64.Banded.PipeSection.t) :
  sections <> [] ->
  Binary64.Banded.System.calcTDH
    {| Binary64.Banded.System.pipeSections := sections |}
  = (Normal (map (systemRow64 sections) (seq 0 20)),
     {| Binary64.Banded.System.pipeSections := sections |}).
Proof.
  intro Hne. destruct sections as [| s0 tl]; [congruence |].
  set (sections := s0 :: tl).
  unfold Binary64.Banded.System.calcTDH.
  unfold bind at 1, gets at 1. cbn [Binary64.Banded.System.pipeSections].
  change (Nat.eqb (List.length sections) 0) with false. cbv iota.
  unfold bind at 1. unfold receiver_at at 1. cbn [nth_error sections ret].
  rewrite banded_execute64_length.
  unfold for_range.
  rewrite (for_of_pure _ _ _
             (fun acc i => assign acc i (systemRow64 sections i))).
  - now rewrite fill_all.
  - intros acc i Hi. apply in_seq in Hi.
    unfold bind at 1, gets at 1. cbn [Binary64.Banded.System.pipeSections].
    unfold bind at 1.
    rewrite (for_of_pure _ _ _
               (fun (locals : float * float * float) s =>
                  ((fst (fst locals) + snd (fst (bandedRow64 s i)))%float,
                   (snd (fst locals) + fst (fst (bandedRow64 s i)))%float,
                   snd (bandedRow64 s i)))).
    + unfold ret, systemRow64, accumulate64.
      destruct (fold_left _ sections _) as [[mn mx] fr]. reflexivity.
    + intros [[mn mx] fr] s _. unfold bind, destructure_at.
      rewrite banded_execute64_nth by lia.
      unfold ret. simpl. reflexivity.
Qed.



(** *** The curve of [System.calcTDH] over the real numbers *)



(** *** [Pipeline.execute] over the single-valued sections *)


(** *** [Pipeline.execute] over the banded sections *)

Lemma laid_out_inner_fold
  (host : Host) (i : nat) (sections : list Banded.PipeSection.t) :
  forall a c,
    fold_left
      (fun (locals : R * R) s =>
         (fst locals + fst (fst (bandedRow s i)), snd (fst (bandedRow s i))))
      sections (a, c)
    = (a + Rsum (map (fun s => fst (fst (bandedRow s i))) sections),
       fold_left (fun _ s => snd (fst (bandedRow s i))) sections c).
Proof.
  induction sections as [| s tl IH]; intros a c; simpl.
  - now rewrite Rplus_0_r.
  - rewrite IH. simpl. now rewrite Rplus_assoc.
Qed.

Lemma laid_out_execute_value
  (host : Host) (targetFlowRate : R)
  (approximationMethod : option Single.ApproximationMethod)
  (isImperial : bool) (sections : list Banded.PipeSection.t) :
  sections <> [] ->
  approximationMethod <> Some Single.COLEBROOK ->
  PipelineLaidOut.execute targetFlowRate approximationMethod isImperial
    {| PipelineLaidOut.pipeSections := sections |}
  = (Normal (map (laidOutRow sections) (seq 0 20)),
     {| PipelineLaidOut.pipeSections := sections |}).
Proof.
  intros Hne Hm. destruct sections as [| s0 tl]; [congruence |].
  set (sections := s0 :: tl).
  assert (Hmethod :
    match approximationMethod with
    | Some m => m
    | None => Single.SERGHIDE
    end = Single.SERGHIDE).
  { destruct approximationMethod as [[|] |]; try reflexivity. congruence. }
  unfold PipelineLaidOut.execute. rewrite Hmethod.
  unfold bind at 1, gets at 1. cbn [PipelineLaidOut.pipeSections].
  change (Nat.eqb (List.length sections) 0) with false. cbv iota.
  unfold bind at 1. unfold ret at 1.
  unfold for_range.
  rewrite (for_of_pure _ _ _
             (fun acc i => assign acc i (laidOutRow sections i))).
  - now rewrite fill_all.
  - intros acc i Hi. apply in_seq in Hi.
    unfold bind at 1, gets at 1. cbn [PipelineLaidOut.pipeSections].
    unfold bind at 1.
    rewrite (for_of_pure _ _ _
               (fun (locals : R * R) s =>
                  (fst locals + fst (fst (bandedRow s i)),
                   snd (fst (bandedRow s i))))).
    + rewrite laid_out_inner_fold. unfold ret, laidOutRow.
      rewrite !Rplus_0_l. reflexivity.
    + intros [tdh fr] s _. unfold bind, destructure_at.
      rewrite banded_execute_nth_error by lia.
      unfold ret. simpl. reflexivity.
Qed.


(** *** The examples *)

Lemma raisedSection_constructed (targetFlowRate : R) :
  Banded.PipeSection.new (raisedParams targetFlowRate)
  = Normal (raisedSection targetFlowRate).
Proof.
  unfold Banded.PipeSection.new, Banded.PipeSection.constructor,
    raisedParams, raisedSection. simpl.
  rewrite !le_false, !lt_false by lra. simpl.
  now rewrite strict_ne_false.
Qed.


(** The curves of these sections are the same on every host that squares
    as the example host does. *)
Lemma viscous_system_on_every_host
  (pow : float -> float -> float) (log10 : float -> float)
  (sections : list Binary64.Banded.PipeSection.t) :
  Forall (fun s => In s [viscousBandSection64;
                         viscousFlatSection64 10 [0.5]%float;
                         viscousFlatSection64 10 [0.5; 1.5]%float])
         sections ->
  Binary64.Banded.System.calcTDH (host := Binary64.squaringHost pow log10)
    {| Binary64.Banded.System.pipeSections := sections |}
  = Binary64.Banded.System.calcTDH (host := exampleHost64)
      {| Binary64.Banded.System.pipeSections := sections |}.
Proof.
  intro Hall.
  destruct sections as [| s0 tl]; [reflexivity |].
  rewrite !calcTDH64_value by discriminate. f_equal. f_equal.
  apply map_ext_in. intros i Hi. apply in_seq in Hi.
  unfold systemRow64, accumulate64.
  assert (Hrow : forall s, In s (s0 :: tl) ->
            bandedRow64 (host := Binary64.squaringHost pow log10) s i
            = bandedRow64 (host := exampleHost64) s i).
  { intros s Hs. rewrite Forall_forall in Hall. specialize (Hall s Hs).
    assert (Hi' : In i (seq 0 20)) by (apply in_seq; lia).
    clear - Hall Hi'.
    cbn [In] in Hall.
    destruct Hall as [<- | [<- | [<- | []]]];
      repeat (destruct Hi' as [<- | Hi']; [vm_compute; reflexivity |]);
      destruct Hi'. }
  generalize (0, 0, 0)%float.
  revert Hrow. generalize (s0 :: tl) as l. clear.
  induction l as [| s l IH]; intros Hrow acc; [reflexivity |].
  cbn [fold_left]. rewrite (Hrow s) by now left.
  apply IH. intros s' Hs'. apply Hrow. now right.
Qed.






(** ** The curve of a pipeline *)

(** X7.  Over the banded sections, a pipeline with at least one section and
    a method other than the unimplemented one returns twenty tuples and
    stays as it is; the tuple of index [i] holds the sum over the sections
    of the first heads of their tuples of index [i], and the second head of
    the tuple of index [i] of the last section.  The target flow rate and
    the unit system passed to [execute] play no part. *)
Theorem pipeline_curve_over_banded_sections
  (host : Host) (targetFlowRate : R)
  (approximationMethod : option Single.ApproximationMethod)
  (isImperial : bool) (sections : list Banded.PipeSection.t) :
  sections <> [] ->
  approximationMethod <> Some Single.COLEBROOK ->
  exists curve,
    PipelineLaidOut.execute targetFlowRate approximationMethod isImperial
      {| PipelineLaidOut.pipeSections := sections |}
    = (Normal curve, {| PipelineLaidOut.pipeSections := sections |})
    /\ List.length curve = 20%nat
    /\ forall (i : nat) (d : Banded.PipeSection.t), (i < 20)%nat ->
         let row (s : Banded.PipeSection.t) :=
           nth i (Banded.PipeSection.execute s) (0, 0, 0) in
         nth i curve (0, 0)
         = (Rsum (map (fun s => fst (fst (row s))) sections),
            snd (fst (row (last sections d)))).
Proof.
  intros Hne Hm. eexists.
  refine (conj (laid_out_execute_value host targetFlowRate
                  approximationMethod isImperial sections Hne Hm) _).
  split; [now rewrite length_map, length_seq |].
  intros i d Hi. cbv zeta.
  rewrite map_seq_nth by assumption.
  unfold laidOutRow.
  rewrite (last_flow_of_last (fun s => snd (fst (bandedRow s i)))
             sections d 0 Hne).
  assert (Hrow : forall s,
             nth i (Banded.PipeSection.execute s) (0, 0, 0) = bandedRow s i)
    by (intro s; now apply banded_execute_nth).
  rewrite Hrow.
  rewrite (map_ext (fun s => fst (fst (nth i (Banded.PipeSection.execute s)
                                         (0, 0, 0))))
             (fun s => fst (fst (bandedRow s i))))
    by (intro s; now rewrite Hrow).
  reflexivity.
Qed.

(** The example section followed by the same section raised by five: the
    second element of the first tuple is five above the second head of the
    example section, whatever target flow rate is passed. *)
Lemma pipeline_curve_over_banded_sections_witness :
  Banded.PipeSection.new (raisedParams 10) = Normal (raisedSection 10)
  /\ exists curve,
    fst (PipelineLaidOut.execute (host := idealHost) 123 None false
           {| PipelineLaidOut.pipeSections :=
                [exampleSection 10; raisedSection 10] |})
    = Normal curve
    /\ List.length curve = 20%nat
    /\ snd (nth 0 curve (0, 0))
       = 5 + snd (fst (nth 0 (Banded.PipeSection.execute (host := idealHost)
                                (exampleSection 10)) (0, 0, 0))).
Proof.
  split; [apply raisedSection_constructed |].
  destruct (pipeline_curve_over_banded_sections idealHost 123 None false
              [exampleSection 10; raisedSection 10])
    as (curve & Hrun & Hlen & Hrows).
  - discriminate.
  - discriminate.
  - exists curve. rewrite Hrun. refine (conj eq_refl (conj Hlen _)).
    rewrite (Hrows 0%nat (exampleSection 0)) by lia.
    cbn [snd last]. rewrite !banded_execute_nth by lia.
    unfold bandedRow. cbn [fst snd].
    rewrite !banded_heads_as_losses. cbn [fst snd].
    change (bandedLossesFor (host := idealHost) (raisedSection 10)
              (bandedPressureHead (raisedSection 10) true))
      with (bandedLossesFor (host := idealHost) (exampleSection 10)
              (bandedPressureHead (exampleSection 10) true)).
    cbn [raisedSection exampleSection Banded.PipeSection.z2_min
           Banded.PipeSection.z1_max Banded.PipeSection.targetFlowRate].
    lra.
Defined.



(** X8.  An aggregate of one section returns the curve of that section: a
    system the tuples of [execute] of the section, a pipeline over the
    banded sections the two heads of each of these tuples. *)
Theorem one_section_aggregate_curve (host : Host) (s : Banded.PipeSection.t)
  (targetFlowRate : R)
  (approximationMethod : option Single.ApproximationMethod)
  (isImperial : bool) :
  approximationMethod <> Some Single.COLEBROOK ->
  Banded.System.calcTDH {| Banded.System.pipeSections := [s] |}
  = (Normal (Banded.PipeSection.execute s),
     {| Banded.System.pipeSections := [s] |})
  /\ PipelineLaidOut.execute targetFlowRate approximationMethod isImperial
       {| PipelineLaidOut.pipeSections := [s] |}
     = (Normal (map fst (Banded.PipeSection.execute s)),
        {| PipelineLaidOut.pipeSections := [s] |}).
Proof.
  intro Hm. split.
  - rewrite calcTDH_value by discriminate. f_equal. f_equal.
    rewrite banded_execute_rows. apply map_ext. intro i.
    unfold systemRow. cbn [map Rsum fold_right fold_left].
    rewrite !Rplus_0_r.
    now destruct (bandedRow s i) as [[maxTDH minTDH] flowRate].
  - rewrite laid_out_execute_value by (assumption || discriminate).
    f_equal. f_equal.
    rewrite banded_execute_rows, map_map. apply map_ext. intro i.
    unfold laidOutRow. cbn [map Rsum fold_right fold_left].
    rewrite Rplus_0_r.
    now destruct (bandedRow s i) as [[maxTDH minTDH] flowRate].
Qed.

(** The system and the pipeline of the banded example alone. *)
Lemma one_section_aggregate_curve_witness :
  Banded.System.calcTDH (host := idealHost)
    {| Banded.System.pipeSections := [bandExampleSection] |}
  = (Normal (Banded.PipeSection.execute (host := idealHost)
               bandExampleSection),
     {| Banded.System.pipeSections := [bandExampleSection] |})
  /\ fst (PipelineLaidOut.execute (host := idealHost) 10 None true
            {| PipelineLaidOut.pipeSections := [bandExampleSection] |})
     = Normal (map fst (Banded.PipeSection.execute (host := idealHost)
                          bandExampleSection)).
Proof.
  assert (Hm : @None Single.ApproximationMethod <> Some Single.COLEBROOK)
    by discriminate.
  destruct (one_section_aggregate_curve idealHost bandExampleSection 10
              None true Hm) as [Hsystem Hpipeline].
  split; [exact Hsystem |]. now rewrite Hpipeline.
Defined.

Lemma laidOutRow_app
  (host : Host) (sections : list Banded.PipeSection.t)
  (s : Banded.PipeSection.t) (i : nat) :
  laidOutRow (sections ++ [s]) i
  = (fst (laidOutRow sections i) + fst (fst (bandedRow s i)),
     snd (fst (bandedRow s i))).
Proof.
  unfold laidOutRow. cbn [fst snd].
  rewrite !map_app, !Rsum_app, fold_left_app.
  cbn [map Rsum fold_right fold_left].
  now rewrite !Rplus_0_r.
Qed.

(** X9.  Adding a section to an aggregate that has sections adds, at every
    index, the heads of the new section to the heads of the curve.  In the
    curve of a system the flow rate becomes the one of the new section; in
    the curve of a pipeline over the banded sections the second element
    becomes the second head of the new section. *)
Theorem added_section_adds_its_heads
  (host : Host) (system : Banded.System.t) (pipeline : PipelineLaidOut.t)
  (pipeSectionParams : Banded.PipeSection.ConstructorParameters)
  (pipeSection : Banded.PipeSection.t)
  (targetFlowRate : R)
  (approximationMethod : option Single.ApproximationMethod)
  (isImperial : bool) :
  Banded.System.pipeSections system <> [] ->
  PipelineLaidOut.pipeSections pipeline <> [] ->
  approximationMethod <> Some Single.COLEBROOK ->
  Banded.PipeSection.new pipeSectionParams = Normal pipeSection ->
  (exists curve curve',
      fst (Banded.System.calcTDH system) = Normal curve
      /\ fst (Banded.System.calcTDH
                (snd (Banded.System.addPipeSection pipeSectionParams
                        system)))
         = Normal curve'
      /\ forall i, (i < 20)%nat ->
           let old := nth i curve (0, 0, 0) in
           let new :=
             nth i (Banded.PipeSection.execute pipeSection) (0, 0, 0) in
           nth i curve' (0, 0, 0)
           = (fst (fst old) + fst (fst new),
              snd (fst old) + snd (fst new),
              snd new))
  /\ (exists curve curve',
         fst (PipelineLaidOut.execute targetFlowRate approximationMethod
                isImperial pipeline)
         = Normal curve
         /\ fst (PipelineLaidOut.execute targetFlowRate approximationMethod
                   isImperial
                   (snd (PipelineLaidOut.addPipeSection pipeSectionParams
                           pipeline)))
            = Normal curve'
         /\ forall i, (i < 20)%nat ->
              let old := nth i curve (0, 0) in
              let new :=
                nth i (Banded.PipeSection.execute pipeSection) (0, 0, 0) in
              nth i curve' (0, 0)
              = (fst old + fst (fst new), snd (fst new))).
Proof.
  destruct system as [sections], pipeline as [sections'].
  cbn [Banded.System.pipeSections PipelineLaidOut.pipeSections].
  intros Hne Hne' Hm Hnew. split.
  - unfold Banded.System.addPipeSection, bind, lift, modify. rewrite Hnew.
    cbn [snd Banded.System.pipeSections].
    do 2 eexists.
    rewrite !calcTDH_value by (try assumption; now destruct sections).
    refine (conj eq_refl (conj eq_refl _)).
    intros i Hi. cbv zeta.
    rewrite !map_seq_nth, banded_execute_nth by assumption.
    apply systemRow_app.
  - unfold PipelineLaidOut.addPipeSection, bind, lift, modify. rewrite Hnew.
    cbn [snd PipelineLaidOut.pipeSections].
    do 2 eexists.
    rewrite !laid_out_execute_value
      by (try assumption; now destruct sections').
    refine (conj eq_refl (conj eq_refl _)).
    intros i Hi. cbv zeta.
    rewrite !map_seq_nth, banded_execute_nth by assumption.
    apply laidOutRow_app.
Qed.

(** The banded example with a band, added to the example system and to the
    pipeline of the example section. *)
Lemma added_section_adds_its_heads_witness :
  (exists curve curve',
      fst (Banded.System.calcTDH (host := idealHost) exampleSystem)
      = Normal curve
      /\ fst (Banded.System.calcTDH (host := idealHost)
                (snd (Banded.System.addPipeSection bandExampleParams
                        exampleSystem)))
         = Normal curve'
      /\ fst (fst (nth 0 curve' (0, 0, 0)))
         = fst (fst (nth 0 curve (0, 0, 0)))
           + fst (fst (nth 0 (Banded.PipeSection.execute (host := idealHost)
                                bandExampleSection) (0, 0, 0))))
  /\ (exists curve curve',
         fst (PipelineLaidOut.execute (host := idealHost) 10 None true
                {| PipelineLaidOut.pipeSections := [exampleSection 10] |})
         = Normal curve
         /\ fst (PipelineLaidOut.execute (host := idealHost) 10 None true
                   (snd (PipelineLaidOut.addPipeSection bandExampleParams
                           {| PipelineLaidOut.pipeSections :=
                                [exampleSection 10] |})))
            = Normal curve'
         /\ snd (nth 0 curve' (0, 0))
            = snd (fst (nth 0 (Banded.PipeSection.execute
                                 (host := idealHost) bandExampleSection)
                          (0, 0, 0)))).
Proof.
  assert (Hne : Banded.System.pipeSections exampleSystem <> [])
    by discriminate.
  assert (Hne' : PipelineLaidOut.pipeSections
                   {| PipelineLaidOut.pipeSections := [exampleSection 10] |}
                 <> []) by discriminate.
  assert (Hm : @None Single.ApproximationMethod <> Some Single.COLEBROOK)
    by discriminate.
  destruct (added_section_adds_its_heads idealHost exampleSystem
              {| PipelineLaidOut.pipeSections := [exampleSection 10] |}
              bandExampleParams bandExampleSection 10 None true
              Hne Hne' Hm bandExampleSection_constructed)
    as [(curve & curve' & Hrun & Hrun' & Hrows)
        (pcurve & pcurve' & Hprun & Hprun' & Hprows)].
  split.
  - exists curve, curve'. refine (conj Hrun (conj Hrun' _)).
    rewrite (Hrows 0%nat) by lia. reflexivity.
  - exists pcurve, pcurve'. refine (conj Hprun (conj Hprun' _)).
    rewrite (Hprows 0%nat) by lia. reflexivity.
Defined.

(** ** What the constructors accept, guard by guard *)

(** On binary64 numbers every guard of the two constructors is a comparison
    with 0 or between two elevations, and a comparison with NaN is false:
    both constructors return a section when every numeric argument is NaN.
    The banded constructor also caches an area of 0 for a diameter of
    [1e-200], whose square underflows. *)
Lemma constructors_accept_nan :
  returns
    (Binary64.Banded.PipeSection.constructor (host := exampleHost64)
       nan nan nan nan nan nan nan nan nan nan nan nan nan [0.5]%float)
  = true
  /\ returns
       (Binary64.Single.PipeSection.constructor
          nan nan nan nan nan nan nan nan nan nan nan [])
     = true
  /\ Binary64.Banded.PipeSection.constructor (host := exampleHost64)
       0 0 0 0 0 0 0 0 100 1e-200 0.0002 1 10 [0.5]%float
     = Normal hairlineSection64
  /\ Binary64.Banded.PipeSection.hydraulicArea hairlineSection64 = 0%float.
Proof.
  refine (conj _ (conj _ (conj _ _))); vm_compute; reflexivity.
Qed.

(** X10.  When the diameter, the length and the viscosity are positive,
    the roughness is not negative, there is a K value and neither end of
    the second elevation band lies below the opposite end of the first, the
    banded constructor returns the section that holds the arguments, the
    area [pi * diameter^2 / 4], the relative roughness and the flag of a
    velocity difference.  When one of its six guards is met it throws a
    validation error.  The pressures, the velocities and the target flow
    rate are not looked at. *)
Theorem banded_constructor_guards
  (a : Banded.PipeSection.ConstructorParameters) :
  (0 < Banded.PipeSection.arg_diameter a ->
   0 < Banded.PipeSection.arg_length a ->
   0 <= Banded.PipeSection.arg_absoluteRoughness a ->
   0 < Banded.PipeSection.arg_kinematicViscOfFluid a ->
   Banded.PipeSection.arg_appurtenanceKValues a <> [] ->
   Banded.PipeSection.arg_z1_min a <= Banded.PipeSection.arg_z2_max a ->
   Banded.PipeSection.arg_z1_max a <= Banded.PipeSection.arg_z2_min a ->
   Banded.PipeSection.new a
   = Normal
       {| Banded.PipeSection.p1 := Banded.PipeSection.arg_p1 a;
          Banded.PipeSection.p2 := Banded.PipeSection.arg_p2 a;
          Banded.PipeSection.v1 := Banded.PipeSection.arg_v1 a;
          Banded.PipeSection.v2 := Banded.PipeSection.arg_v2 a;
          Banded.PipeSection.z1_min := Banded.PipeSection.arg_z1_min a;
          Banded.PipeSection.z2_min := Banded.PipeSection.arg_z2_min a;
          Banded.PipeSection.z1_max := Banded.PipeSection.arg_z1_max a;
          Banded.PipeSection.z2_max := Banded.PipeSection.arg_z2_max a;
          Banded.PipeSection.length := Banded.PipeSection.arg_length a;
          Banded.PipeSection.diameter := Banded.PipeSection.arg_diameter a;
          Banded.PipeSection.absoluteRoughness :=
            Banded.PipeSection.arg_absoluteRoughness a;
          Banded.PipeSection.kinematicViscOfFluid :=
            Banded.PipeSection.arg_kinematicViscOfFluid a;
          Banded.PipeSection.targetFlowRate :=
            Banded.PipeSection.arg_targetFlowRate a;
          Banded.PipeSection.appurtenanceKValues :=
            Banded.PipeSection.arg_appurtenanceKValues a;
          Banded.PipeSection.hydraulicArea :=
            PI * Banded.PipeSection.arg_diameter a ^ 2 / 4;
          Banded.PipeSection.relativeRoughness :=
            Banded.PipeSection.arg_absoluteRoughness a
            / Banded.PipeSection.arg_diameter a;
          Banded.PipeSection.hasVelocityHead :=
            strict_ne (Banded.PipeSection.arg_v2 a)
              (Banded.PipeSection.arg_v1 a) |})
  /\ (Banded.PipeSection.arg_diameter a <= 0
      \/ Banded.PipeSection.arg_length a <= 0
      \/ Banded.PipeSection.arg_absoluteRoughness a < 0
      \/ Banded.PipeSection.arg_kinematicViscOfFluid a <= 0
      \/ Banded.PipeSection.arg_appurtenanceKValues a = []
      \/ Banded.PipeSection.arg_z2_max a < Banded.PipeSection.arg_z1_min a
      \/ Banded.PipeSection.arg_z2_min a < Banded.PipeSection.arg_z1_max a ->
      raises (Banded.PipeSection.new a) ValidationError).
Proof.
  split.
  - intros Hd Hl Hr Hv Hk Hz1 Hz2.
    unfold Banded.PipeSection.new, Banded.PipeSection.constructor.
    rewrite !le_false, !lt_false by assumption.
    destruct (Banded.PipeSection.arg_appurtenanceKValues a) eqn:HK;
      [congruence |].
    cbn [List.length Nat.eqb orb]. rewrite Math_pow_2. reflexivity.
  - intro Hbad.
    unfold Banded.PipeSection.new, Banded.PipeSection.constructor, raises.
    repeat match goal with
           | |- context [if ?c then Throw ?e else _] =>
               destruct c eqn:?; [exists e; split; reflexivity |]
           end.
    exfalso.
    repeat match goal with
           | H : le _ _ = false |- _ => apply le_false_iff in H
           | H : lt _ _ = false |- _ => apply lt_false_iff in H
           | H : _ || _ = false |- _ => apply orb_false_iff in H; destruct H
           end.
    destruct Hbad as [Hd | [Hl | [Hr | [Hv | [Hk | [Hz | Hz]]]]]]; try lra.
    rewrite Hk in *. discriminate.
Qed.

(** The arguments of the banded example pass; the same arguments with a
    negative roughness do not. *)
Lemma banded_constructor_guards_witness :
  (exists s,
      Banded.PipeSection.new bandExampleParams = Normal s
      /\ Banded.PipeSection.hydraulicArea s = PI * 0.75 ^ 2 / 4
      /\ Banded.PipeSection.hasVelocityHead s = true)
  /\ raises
       (Banded.PipeSection.new
          {| Banded.PipeSection.arg_p1 := 10;
             Banded.PipeSection.arg_p2 := 12;
             Banded.PipeSection.arg_v1 := 0;
             Banded.PipeSection.arg_v2 := 3;
             Banded.PipeSection.arg_z1_min := 0;
             Banded.PipeSection.arg_z2_min := 5;
             Banded.PipeSection.arg_z1_max := 2;
             Banded.PipeSection.arg_z2_max := 9;
             Banded.PipeSection.arg_length := 250;
             Banded.PipeSection.arg_diameter := 0.75;
             Banded.PipeSection.arg_absoluteRoughness := -0.0005;
             Banded.PipeSection.arg_kinematicViscOfFluid := 1.1e-5;
             Banded.PipeSection.arg_targetFlowRate := 10;
             Banded.PipeSection.arg_appurtenanceKValues := [0.5; 1.5] |})
       ValidationError.
Proof.
  split.
  - destruct (banded_constructor_guards bandExampleParams) as [Hgood _].
    eexists. split.
    + apply Hgood; unfold bandExampleParams; simpl;
        try lra; discriminate.
    + split; [reflexivity |].
      apply strict_ne_true. simpl. lra.
  - apply banded_constructor_guards. simpl. lra.
Defined.

(** X11.  When the diameter is not negative and the length, the roughness
    and the viscosity are positive, the single-valued constructor returns
    the section that holds the twelve arguments as given.  When one of its
    four guards is met it throws a validation error.  The K values, the
    pressures, the velocities, the elevations and the target flow rate are
    not looked at. *)
Theorem single_constructor_guards
  (a : Single.PipeSection.ConstructorParameters) :
  (0 <= Single.PipeSection.arg_diameter a ->
   0 < Single.PipeSection.arg_length a ->
   0 < Single.PipeSection.arg_absoluteRoughness a ->
   0 < Single.PipeSection.arg_kinematicViscosity a ->
   Single.PipeSection.new a
   = Normal
       {| Single.PipeSection.initialPressure :=
            Single.PipeSection.arg_initialPressure a;
          Single.PipeSection.finalPressure :=
            Single.PipeSection.arg_finalPressure a;
          Single.PipeSection.initialVelocity :=
            Single.PipeSection.arg_initialVelocity a;
          Single.PipeSection.finalVelocity :=
            Single.PipeSection.arg_finalVelocity a;
          Single.PipeSection.targetFlowRate :=
            Single.PipeSection.arg_targetFlowRate a;
          Single.PipeSection.initialElevation :=
            Single.PipeSection.arg_initialElevation a;
          Single.PipeSection.finalElevation :=
            Single.PipeSection.arg_finalElevation a;
          Single.PipeSection.length := Single.PipeSection.arg_length a;
          Single.PipeSection.diameter := Single.PipeSection.arg_diameter a;
          Single.PipeSection.absoluteRoughness :=
            Single.PipeSection.arg_absoluteRoughness a;
          Single.PipeSection.kinematicViscosity :=
            Single.PipeSection.arg_kinematicViscosity a;
          Single.PipeSection.kValues := Single.PipeSection.arg_kValues a |})
  /\ (Single.PipeSection.arg_diameter a < 0
      \/ Single.PipeSection.arg_length a <= 0
      \/ Single.PipeSection.arg_absoluteRoughness a <= 0
      \/ Single.PipeSection.arg_kinematicViscosity a <= 0 ->
      raises (Single.PipeSection.new a) ValidationError).
Proof.
  split.
  - intros Hd Hl Hr Hv.
    unfold Single.PipeSection.new, Single.PipeSection.constructor.
    now rewrite !le_false, !lt_false by assumption.
  - intro Hbad.
    unfold Single.PipeSection.new, Single.PipeSection.constructor, raises.
    repeat match goal with
           | |- context [if ?c then Throw ?e else _] =>
               destruct c eqn:?; [exists e; split; reflexivity |]
           end.
    exfalso.
    repeat match goal with
           | H : le _ _ = false |- _ => apply le_false_iff in H
           | H : lt _ _ = false |- _ => apply lt_false_iff in H
           end.
    destruct Hbad as [Hd | [Hl | [Hr | Hv]]]; lra.
Qed.

(** The arguments of the example pass; the same arguments with a length of
    0 do not. *)
Lemma single_constructor_guards_witness :
  Single.PipeSection.new exampleSingleParams = Normal exampleSingleSection
  /\ raises
       (Single.PipeSection.new
          {| Single.PipeSection.arg_initialPressure := 0;
             Single.PipeSection.arg_finalPressure := 0;
             Single.PipeSection.arg_initialVelocity := 0;
             Single.PipeSection.arg_finalVelocity := 0;
             Single.PipeSection.arg_targetFlowRate := 10;
             Single.PipeSection.arg_initialElevation := 0;
             Single.PipeSection.arg_finalElevation := 0;
             Single.PipeSection.arg_length := 0;
             Single.PipeSection.arg_diameter := 0.5;
             Single.PipeSection.arg_absoluteRoughness := 0.0002;
             Single.PipeSection.arg_kinematicViscosity := 1.1e-5;
             Single.PipeSection.arg_kValues := [0.5] |})
       ValidationError.
Proof.
  split.
  - destruct (single_constructor_guards exampleSingleParams) as [Hgood _].
    rewrite Hgood; unfold exampleSingleParams; simpl; try lra.
    reflexivity.
  - apply single_constructor_guards. simpl. lra.
Defined.

(** ** The Reynolds number of a section of positive size *)

(** On binary64 numbers the section of diameter 0, which the single-valued
    constructor accepts, has no Reynolds number: the velocity is a division
    by 0, and [Math.max] of NaN and the floor is NaN. *)
Lemma reynolds_number_at_diameter_zero :
  Binary64.Single.PipeSection.constructor
    0 0 0 0 10 0 0 100 0 0.0002 1.1e-5 [0.5]%float
  = Normal zeroDiameterSection64
  /\ Binary64.Single.Bernoullis.calculateReynoldsNumber
       (host := exampleHost64) zeroDiameterSection64 1
     = nan
  /\ Binary64.Single.Bernoullis.calculateReynoldsNumber
       (host := exampleHost64) zeroDiameterSection64 0
     = nan.
Proof.
  refine (conj _ (conj _ _)); vm_compute; reflexivity.
Qed.



(** ** The pipeline over the banded sections: errors and frame *)

Lemma laid_out_execute_readOnly
  (host : Host) (targetFlowRate : R)
  (approximationMethod : option Single.ApproximationMethod)
  (isImperial : bool) :
  readOnly (PipelineLaidOut.execute targetFlowRate approximationMethod
              isImperial).
Proof.
  unfold PipelineLaidOut.execute.
  destruct approximationMethod as [[|] |]; repeat readonly_step.
Qed.

(** X22.  Over the banded sections [Pipeline.execute] leaves the pipeline as
    it is, however it completes; on a pipeline without sections it throws
    the error of an empty pipeline, whatever the method, and on a pipeline
    with sections the unimplemented method is refused. *)
Theorem pipeline_over_banded_sections_errors
  (host : Host) (targetFlowRate : R)
  (approximationMethod : option Single.ApproximationMethod)
  (isImperial : bool) (pipeline : PipelineLaidOut.t) :
  snd (PipelineLaidOut.execute targetFlowRate approximationMethod isImperial
         pipeline)
  = pipeline
  /\ (PipelineLaidOut.pipeSections pipeline = [] ->
      raises
        (fst (PipelineLaidOut.execute targetFlowRate approximationMethod
                isImperial pipeline))
        EmptyPipelineError)
  /\ (PipelineLaidOut.pipeSections pipeline <> [] ->
      raises
        (fst (PipelineLaidOut.execute targetFlowRate (Some Single.COLEBROOK)
                isImperial pipeline))
        UnsupportedMethodError).
Proof.
  refine (conj (laid_out_execute_readOnly host targetFlowRate
                  approximationMethod isImperial pipeline) (conj _ _)).
  - destruct pipeline as [sections].
    cbn [PipelineLaidOut.pipeSections]. intros ->.
    eexists. split; reflexivity.
  - destruct pipeline as [[| s tl]];
      cbn [PipelineLaidOut.pipeSections]; [congruence |]. intros _.
    eexists. split; reflexivity.
Qed.

(** The pipeline without sections and the pipeline of the banded
    example. *)
Lemma pipeline_over_banded_sections_errors_witness :
  raises
    (fst (PipelineLaidOut.execute (host := idealHost) 10
            (Some Single.SERGHIDE) true
            {| PipelineLaidOut.pipeSections := [] |}))
    EmptyPipelineError
  /\ raises
       (fst (PipelineLaidOut.execute (host := idealHost) 10
               (Some Single.COLEBROOK) true
               {| PipelineLaidOut.pipeSections := [bandExampleSection] |}))
       UnsupportedMethodError.
Proof.
  split.
  - apply (pipeline_over_banded_sections_errors idealHost 10
             (Some Single.SERGHIDE) true
             {| PipelineLaidOut.pipeSections := [] |}).
    reflexivity.
  - apply (pipeline_over_banded_sections_errors idealHost 10 None true
             {| PipelineLaidOut.pipeSections := [bandExampleSection] |}).
    discriminate.
Defined.
